(** * Insurance Comparison API: quote pricing, persistence and listing

    A shallow embedding of [main.py]: the [QuoteRequest] model with its
    declared field constraints, the pricing arithmetic of [create_quote]
    on IEEE 754 binary64 numbers (Python's [float]), the persistence of the
    priced quote and [list_quotes].  The [database] module of the repository
    is imported by [main.py] but is not part of the sources at hand; it is
    modelled from the written specification and marked as such. *)

From Stdlib Require Import ZArith NArith List String Bool Lia.
From Stdlib Require Import PrimFloat SpecFloat FloatOps FloatAxioms.
Import ListNotations.

Set Warnings "-inexact-float".

Local Open Scope Z_scope.

(** ** Python values *)

Module Py.

(** Nearest integer to [n / d] for [d > 0], exact ties going to the even
    neighbour. *)
Definition round_half_even (n d : Z) : Z :=
  let q := n / d in
  match 2 * (n mod d) ?= d with
  | Lt => q
  | Eq => if Z.even q then q else q + 1
  | Gt => q + 1
  end.

(** Nearest integer to [m * 2^e * k]. *)
Definition scaled_nearest (m : positive) (e k : Z) : Z :=
  match e with
  | Zneg s => round_half_even (Zpos m * k) (Z.pow_pos 2 s)
  | _ => Zpos m * k * 2 ^ e
  end.

(** [round(x, 2)] on a float.  CPython converts [x] to the correctly
    rounded decimal with two fractional digits (half-even on the exact
    binary value) and reads that decimal back as the nearest binary64
    number; infinities and NaN round to themselves. *)
Definition round2 (x : float) : float :=
  match Prim2SF x with
  | S754_finite s m e =>
      match scaled_nearest m e 100 with
      | Zpos n =>
          SF2Prim (SFdiv prec emax (S754_finite s n 0) (S754_finite false 100 0))
      | _ => SF2Prim (S754_zero s)
      end
  | _ => x
  end.

(** [min(a, b)] of two floats: [b] when [b < a], otherwise [a]. *)
Definition min (a b : float) : float := if PrimFloat.ltb b a then b else a.

(** Conversion of an [int] to [float] (round to nearest even).  Python
    raises [OverflowError] on an [int] too large for a float, where this
    function gives an infinity: it stands for the conversion on the [int]s
    below [2^1023] in absolute value only. *)
Definition float_of_int (n : Z) : float :=
  SF2Prim (binary_normalize prec emax n 0 false).

(** Truth value of an optional [bool]. *)
Definition truthy_bool (o : option bool) : bool :=
  match o with
  | Some b => b
  | None => false
  end.

(** [o or 0] on an optional [int]. *)
Definition or_zero (o : option Z) : Z :=
  match o with
  | Some n => if n =? 0 then 0 else n
  | None => 0
  end.

(** [o and o < bound] on an optional [int], as a truth value. *)
Definition and_lt (o : option Z) (bound : Z) : bool :=
  match o with
  | Some n => negb (n =? 0) && (n <? bound)
  | None => false
  end.

(** [o and o > bound] on an optional [float], as a truth value. *)
Definition and_gt (o : option float) (bound : float) : bool :=
  match o with
  | Some x => negb (PrimFloat.eqb x 0) && PrimFloat.ltb bound x
  | None => false
  end.

End Py.

(** ** Data model *)

Inductive QuoteType : Type := auto | home.

Definition QuoteType_str (t : QuoteType) : string :=
  match t with
  | auto => "auto"
  | home => "home"
  end.

Record QuoteRequest : Type := {
  quote_type : QuoteType;
  zip_code : string;
  age : option Z;
  vehicle_year : option Z;
  vehicle_make : option string;
  vehicle_model : option string;
  accidents_last_5_years : option Z;
  home_value : option float;
  square_feet : option Z;
  security_system : option bool
}.

(** A carrier offer: one of the dictionaries of the [carriers] list. *)
Record CarrierOffer : Type := {
  name : string;
  monthly : float;
  rating : float;
  features : list string;
  cta : string
}.

(** The declared constraints [Field(None, ge=..., le=...)]. *)
Definition in_range (lo hi : Z) (o : option Z) : bool :=
  match o with
  | Some n => (lo <=? n) && (n <=? hi)
  | None => true
  end.

Definition at_least (lo : Z) (o : option Z) : bool :=
  match o with
  | Some n => lo <=? n
  | None => true
  end.

Definition float_at_least (lo : float) (o : option float) : bool :=
  match o with
  | Some x => PrimFloat.leb lo x
  | None => true
  end.

Definition field_constraints (r : QuoteRequest) : bool :=
  in_range 16 120 (age r)
  && in_range 1980 2100 (vehicle_year r)
  && in_range 0 10 (accidents_last_5_years r)
  && float_at_least 0 (home_value r)
  && at_least 100 (square_feet r).

Definition valid (r : QuoteRequest) : Prop := field_constraints r = true.

(** ** Pricing, as in [create_quote] *)

Section Pricing.
Local Open Scope float_scope.

Definition base_price (payload : QuoteRequest) : float :=
  match quote_type payload with
  | auto => 600.0
  | home => 1200.0
  end.

Definition modifiers (payload : QuoteRequest) : float :=
  let modifiers := 0.0 in
  let modifiers :=
    if Py.and_lt (age payload) 25 then modifiers + 0.25 else modifiers in
  let modifiers :=
    match quote_type payload with
    | auto =>
        let modifiers :=
          if Py.and_lt (vehicle_year payload) 2005
          then modifiers + 0.15 else modifiers in
        if (0 <? Py.or_zero (accidents_last_5_years payload))%Z
        then modifiers
             + Py.min 0.4
                 (0.1 * Py.float_of_int
                          (Py.or_zero (accidents_last_5_years payload)))
        else modifiers
    | home => modifiers
    end in
  match quote_type payload with
  | home =>
      let modifiers :=
        if Py.and_gt (home_value payload) 750000
        then modifiers + 0.2 else modifiers in
      if Py.truthy_bool (security_system payload)
      then modifiers - 0.05 else modifiers
  | auto => modifiers
  end.

(** [round(base_price * (1 + modifiers) / 12 * multiplier, 2)] *)
Definition monthly_price (payload : QuoteRequest) (multiplier : float) : float :=
  Py.round2 (base_price payload * (1 + modifiers payload) / 12 * multiplier).

Definition carriers (payload : QuoteRequest) : list CarrierOffer :=
  [ {| name := "BlueShield Mutual";
       monthly := monthly_price payload 0.95;
       rating := 4.7;
       features := ["24/7 support"; "Bundle discount"; "Fast claims"]%string;
       cta := "Get Started" |};
    {| name := "NorthStar Insurance";
       monthly := monthly_price payload 1.02;
       rating := 4.5;
       features := ["Accident forgiveness"; "Roadside (auto)";
                    "Smart home (home)"]%string;
       cta := "Select" |};
    {| name := "Aurora Coverage Co.";
       monthly := monthly_price payload 0.88;
       rating := 4.3;
       features := ["Low deductible options"; "Local agents";
                    "Online portal"]%string;
       cta := "View Details" |} ].

End Pricing.

(** ** Persistence and listing *)

(** The key [_id] of a stored document: the store's [ObjectId], or its
    [str] once [list_quotes] has made it serialisable. *)
Inductive DocId : Type :=
| ObjectId (n : N)
| StrId (s : string).

(** One lowercase hexadecimal digit. *)
Definition hex_digit (d : N) : Ascii.ascii :=
  if (d <? 10)%N then Ascii.ascii_of_N (48 + d) else Ascii.ascii_of_N (87 + d).

(** The [digits] lowest hexadecimal digits of [n], the most significant
    first, put before [acc]. *)
Fixpoint hex_digits (digits : nat) (n : N) (acc : string) : string :=
  match digits with
  | O => acc
  | S k => hex_digits k (n / 16)%N (String (hex_digit (n mod 16)%N) acc)
  end.

(** [str(d["_id"])]: an [ObjectId] holds twelve bytes, [n] being their
    value as a big-endian number, and its [str] is their 24 lowercase
    hexadecimal digits; the [str] of a string is the string. *)
Definition str (i : DocId) : string :=
  match i with
  | ObjectId n => hex_digits 24 n EmptyString
  | StrId s => s
  end.

(** The dictionary [doc] handed to [create_document]:
    [payload.model_dump()] with the key [results] added. *)
Record NewDocument : Type := {
  new_fields : QuoteRequest;
  new_results : list CarrierOffer
}.

(** A document as the store returns it. *)
Record Document : Type := {
  _id : DocId;
  fields : QuoteRequest;
  results : list CarrierOffer
}.

(** [str(e)] of a raised exception. *)
Definition Exception : Type := string.

(** The functions [main.py] imports from [database].  Their code is not
    among the sources, so the handlers take them as a parameter: a call
    returns the next state of the store and either the exception it raised
    or its value. *)
Record DatabaseModule : Type := {
  Database : Type;
  create_document :
    Database -> string -> NewDocument -> Database * (Exception + string);
  get_documents :
    Database -> string -> Z -> Database * (Exception + list Document)
}.

Record HTTPException : Type := {
  status_code : Z;
  detail : string
}.

Module QuoteResponse.
Record t : Type := {
  id : string;
  quote_type : string;
  zip_code : string;
  results : list CarrierOffer
}.
End QuoteResponse.

Section Handlers.
Variable M : DatabaseModule.

(** [create_quote]: [db] is the global handle of the [database] module,
    [None] when the store is not configured. *)
Definition create_quote (db : option (Database M)) (payload : QuoteRequest)
  : option (Database M) * (HTTPException + QuoteResponse.t) :=
  match db with
  | None =>
      (None, inl {| status_code := 500; detail := "Database not configured" |})
  | Some d =>
      let carriers := carriers payload in
      let doc := {| new_fields := payload; new_results := carriers |} in
      let collection_name := "quote"%string in
      match create_document M d collection_name doc with
      | (d', inl e) =>
          (Some d',
           inl {| status_code := 500;
                  detail := ("Failed to save: " ++ e)%string |})
      | (d', inr inserted_id) =>
          (Some d',
           inr {| QuoteResponse.id := inserted_id;
                  QuoteResponse.quote_type := QuoteType_str (quote_type payload);
                  QuoteResponse.zip_code := zip_code payload;
                  QuoteResponse.results := carriers |})
      end
  end.

(** The loop [for d in docs: d["_id"] = str(d["_id"])]. *)
Definition stringify_id (d : Document) : Document :=
  {| _id := StrId (str (_id d)); fields := fields d; results := results d |}.

(** [list_quotes]: the value is the list under the key [items]. *)
Definition list_quotes (db : option (Database M)) (limit : Z)
  : option (Database M) * (HTTPException + list Document) :=
  match db with
  | None =>
      (None, inl {| status_code := 500; detail := "Database not configured" |})
  | Some d =>
      match get_documents M d "quote" limit with
      | (d', inr docs) => (Some d', inr (map stringify_id docs))
      | (d', inl e) => (Some d', inl {| status_code := 500; detail := e |})
      end
  end.

(** What the caller of an endpoint receives. *)
Inductive Reply (A : Type) : Type :=
| Reply200 (body : A)
| ReplyError (e : HTTPException)
| RequestValidationError.

(** [POST /api/quotes]: the framework validates the body against the
    declared [QuoteRequest] model and calls [create_quote] only with a body
    that passes. *)
Definition post_api_quotes (db : option (Database M)) (body : QuoteRequest)
  : option (Database M) * Reply QuoteResponse.t :=
  if field_constraints body then
    match create_quote db body with
    | (db', inr r) => (db', Reply200 _ r)
    | (db', inl e) => (db', ReplyError _ e)
    end
  else (db, RequestValidationError _).

End Handlers.

Arguments Reply200 {A} body.
Arguments ReplyError {A} e.
Arguments RequestValidationError {A}.
Arguments create_quote {M} db payload.
Arguments list_quotes {M} db limit.
Arguments post_api_quotes {M} db body.

(** ** The pricing rules as the specification words them *)

Section SpecPricing.
Local Open Scope float_scope.

Definition spec_base_price (r : QuoteRequest) : float :=
  match quote_type r with
  | auto => 600.0
  | home => 1200.0
  end.

(** Step 2 of the specified algorithm: a modifier accumulated from [0.0],
    one rule after the other; a field that is absent contributes nothing. *)
Definition spec_modifier (r : QuoteRequest) : float :=
  let m := 0.0 in
  let m :=
    match age r with
    | Some a => if (a <? 25)%Z then m + 0.25 else m
    | None => m
    end in
  let m :=
    match quote_type r, vehicle_year r with
    | auto, Some y => if (y <? 2005)%Z then m + 0.15 else m
    | _, _ => m
    end in
  let m :=
    match quote_type r, accidents_last_5_years r with
    | auto, Some n =>
        if (0 <? n)%Z then m + Py.min 0.4 (0.1 * Py.float_of_int n) else m
    | _, _ => m
    end in
  let m :=
    match quote_type r, home_value r with
    | home, Some v => if PrimFloat.ltb 750000 v then m + 0.2 else m
    | _, _ => m
    end in
  match quote_type r, security_system r with
  | home, Some true => m - 0.05
  | _, _ => m
  end.

(** Steps 3 and 4: the effective monthly base times the carrier's
    multiplier, rounded to two decimal places. *)
Definition spec_monthly (r : QuoteRequest) (multiplier : float) : float :=
  Py.round2 (spec_base_price r * (1 + spec_modifier r) / 12 * multiplier).

End SpecPricing.

(** ** Requests used as concrete inputs *)

Definition auto_request (a y n : option Z) : QuoteRequest :=
  {| quote_type := auto; zip_code := "94107"; age := a;
     vehicle_year := y; vehicle_make := Some "Honda"%string;
     vehicle_model := Some "Civic"%string;
     accidents_last_5_years := n; home_value := None;
     square_feet := None; security_system := None |}.

Definition home_request (a : option Z) (v : option float) (s : option bool)
  : QuoteRequest :=
  {| quote_type := home; zip_code := "10001"; age := a;
     vehicle_year := None; vehicle_make := None; vehicle_model := None;
     accidents_last_5_years := None; home_value := v;
     square_feet := Some 1800; security_system := s |}.

Definition young_driver_request : QuoteRequest :=
  auto_request (Some 22) (Some 1999) (Some 3).

Definition clean_auto_request : QuoteRequest :=
  auto_request (Some 40) (Some 2018) (Some 0).

Definition secured_home_request : QuoteRequest :=
  home_request (Some 30) (Some 800000%float) (Some true).

Definition ten_accidents_request : QuoteRequest :=
  auto_request (Some 35) (Some 2015) (Some 10).

(** The request with the key [accidents_last_5_years] left out. *)
Definition without_accidents (r : QuoteRequest) : QuoteRequest :=
  {| quote_type := quote_type r; zip_code := zip_code r; age := age r;
     vehicle_year := vehicle_year r; vehicle_make := vehicle_make r;
     vehicle_model := vehicle_model r;
     accidents_last_5_years := None; home_value := home_value r;
     square_feet := square_feet r; security_system := security_system r |}.

(** Two requests agree on every field that is not specific to auto quotes. *)
Definition same_but_auto_fields (r1 r2 : QuoteRequest) : Prop :=
  quote_type r1 = quote_type r2 /\ zip_code r1 = zip_code r2
  /\ age r1 = age r2 /\ home_value r1 = home_value r2
  /\ square_feet r1 = square_feet r2
  /\ security_system r1 = security_system r2.

(** Two requests agree on every field that is not specific to home quotes. *)
Definition same_but_home_fields (r1 r2 : QuoteRequest) : Prop :=
  quote_type r1 = quote_type r2 /\ zip_code r1 = zip_code r2
  /\ age r1 = age r2 /\ vehicle_year r1 = vehicle_year r2
  /\ vehicle_make r1 = vehicle_make r2 /\ vehicle_model r1 = vehicle_model r2
  /\ accidents_last_5_years r1 = accidents_last_5_years r2.

(** ** The store, as the specification describes it *)

Module SpecStore.

(** Modelled from the spec: the state behind the handle [db] of the missing
    [database] module.  Documents are kept with the name of their collection
    in the order of their insertion, oldest first; identifiers are generated
    by the store; [pending] lists the outcome of the coming store operations,
    [Some e] for one that fails with diagnostic [e], and an operation with
    nothing pending succeeds. *)
Record t : Type := {
  inserted : list (string * Document);
  next_oid : N;
  pending : list (option Exception)
}.

(** Modelled from the spec: the documents of one collection, oldest first. *)
Definition collection (c : string) (d : t) : list Document :=
  map snd (filter (fun e => String.eqb (fst e) c) (inserted d)).

(** Modelled from the spec: the failure, if any, of the next operation. *)
Definition fault (d : t) : option Exception :=
  match pending d with
  | Some e :: _ => Some e
  | _ => None
  end.

(** Modelled from the spec: the store after an operation that changed no
    document. *)
Definition after_call (d : t) : t :=
  {| inserted := inserted d; next_oid := next_oid d;
     pending := tl (pending d) |}.

(** The last [n] elements of a list. *)
Definition lastn {A : Type} (n : nat) (l : list A) : list A :=
  skipn (List.length l - n) l.

(** Modelled from the spec: [create(record) -> unique_id] of the missing
    [database] module persists the document and returns the identifier the
    store generated for it, or fails with a write error. *)
Definition create_document (d : t) (c : string) (doc : NewDocument)
  : t * (Exception + string) :=
  match fault d with
  | Some e => (after_call d, inl e)
  | None =>
      let oid := ObjectId (next_oid d) in
      ({| inserted :=
            inserted d
            ++ [(c, {| _id := oid; fields := new_fields doc;
                       results := new_results doc |})];
          next_oid := N.succ (next_oid d);
          pending := tl (pending d) |},
       inr (str oid))
  end.

(** Modelled from the spec: [list(limit)] of the missing [database] module
    returns up to [limit] most recently inserted records, in the order of
    insertion, or fails with a read error.  The specification says that
    [list] never returns more than [limit] records; no list has fewer than
    zero records, so a negative [limit] is refused with an error. *)
Definition get_documents (d : t) (c : string) (limit : Z)
  : t * (Exception + list Document) :=
  match fault d with
  | Some e => (after_call d, inl e)
  | None =>
      if limit <? 0
      then (after_call d, inl "limit must not be negative"%string)
      else (after_call d, inr (lastn (Z.to_nat limit) (collection c d)))
  end.

(** Modelled from the spec: the missing [database] module. *)
Definition database : DatabaseModule :=
  Build_DatabaseModule t create_document get_documents.

(** A store without documents in which the coming operations have the
    given outcomes. *)
Definition empty (outcomes : list (option Exception)) : t :=
  {| inserted := []; next_oid := 0%N; pending := outcomes |}.

End SpecStore.


(** A store that holds one quote under an identifier as the database
    driver generates them. *)
Definition one_quote : SpecStore.t :=
  {| SpecStore.inserted :=
       [("quote"%string,
         {| _id := ObjectId 0x507f1f77bcf86cd799439011;
            fields := auto_request (Some 22) (Some 1999) (Some 3);
            results := carriers (auto_request (Some 22) (Some 1999) (Some 3)) |})];
     SpecStore.next_oid := 0x507f1f77bcf86cd799439012;
     SpecStore.pending := [] |}.

(** A request whose optional fields all hold zero or [False]. *)
Definition zeroed_request : QuoteRequest :=
  {| quote_type := auto; zip_code := "94107"; age := Some 0;
     vehicle_year := Some 0; vehicle_make := None; vehicle_model := None;
     accidents_last_5_years := Some 0; home_value := Some 0%float;
     square_feet := None; security_system := Some false |}.

(** [str(e)[:n]], the truncation of a diagnostic to [n] characters. *)
Definition truncated (n : nat) (e : Exception) : string := substring 0 n e.

(** A diagnostic of 71 characters. *)
Definition long_diagnostic : Exception :=
  "localhost:27017: [Errno 111] Connection refused, Timeout: 30s, Topology"%string.

(** The stored record that corresponds to a response of [create_quote]. *)
Definition listed_record (payload : QuoteRequest) (resp : QuoteResponse.t)
  : Document :=
  {| _id := StrId (QuoteResponse.id resp); fields := payload;
     results := QuoteResponse.results resp |}.

Definition secured_home_with_car : QuoteRequest :=
  {| quote_type := home; zip_code := "10001"; age := Some 30;
     vehicle_year := Some 1990; vehicle_make := Some "Ford"%string;
     vehicle_model := Some "Pinto"%string;
     accidents_last_5_years := Some 7; home_value := Some 800000%float;
     square_feet := Some 1800; security_system := Some true |}.

Definition young_driver_with_house : QuoteRequest :=
  {| quote_type := auto; zip_code := "94107"; age := Some 22;
     vehicle_year := Some 1999; vehicle_make := Some "Honda"%string;
     vehicle_model := Some "Civic"%string;
     accidents_last_5_years := Some 3; home_value := Some 2000000%float;
     square_feet := Some 5000; security_system := Some true |}.

Definition underage_request : QuoteRequest :=
  auto_request (Some 15) (Some 2018) (Some 0).

Definition vintage_car_request : QuoteRequest :=
  auto_request (Some 40) (Some 1975) (Some 0).

(** ** Requests that differ in one field *)

Definition with_age (r : QuoteRequest) (o : option Z) : QuoteRequest :=
  {| quote_type := quote_type r; zip_code := zip_code r; age := o;
     vehicle_year := vehicle_year r; vehicle_make := vehicle_make r;
     vehicle_model := vehicle_model r;
     accidents_last_5_years := accidents_last_5_years r;
     home_value := home_value r; square_feet := square_feet r;
     security_system := security_system r |}.

Definition with_vehicle_year (r : QuoteRequest) (o : option Z) : QuoteRequest :=
  {| quote_type := quote_type r; zip_code := zip_code r; age := age r;
     vehicle_year := o; vehicle_make := vehicle_make r;
     vehicle_model := vehicle_model r;
     accidents_last_5_years := accidents_last_5_years r;
     home_value := home_value r; square_feet := square_feet r;
     security_system := security_system r |}.

Definition with_accidents (r : QuoteRequest) (o : option Z) : QuoteRequest :=
  {| quote_type := quote_type r; zip_code := zip_code r; age := age r;
     vehicle_year := vehicle_year r; vehicle_make := vehicle_make r;
     vehicle_model := vehicle_model r;
     accidents_last_5_years := o;
     home_value := home_value r; square_feet := square_feet r;
     security_system := security_system r |}.

Definition with_home_value (r : QuoteRequest) (o : option float)
  : QuoteRequest :=
  {| quote_type := quote_type r; zip_code := zip_code r; age := age r;
     vehicle_year := vehicle_year r; vehicle_make := vehicle_make r;
     vehicle_model := vehicle_model r;
     accidents_last_5_years := accidents_last_5_years r;
     home_value := o; square_feet := square_feet r;
     security_system := security_system r |}.

Definition with_security_system (r : QuoteRequest) (o : option bool)
  : QuoteRequest :=
  {| quote_type := quote_type r; zip_code := zip_code r; age := age r;
     vehicle_year := vehicle_year r; vehicle_make := vehicle_make r;
     vehicle_model := vehicle_model r;
     accidents_last_5_years := accidents_last_5_years r;
     home_value := home_value r; square_feet := square_feet r;
     security_system := o |}.

(** An optional value that Python takes for false, left out. *)
Definition drop_zero (o : option Z) : option Z :=
  match o with
  | Some n => if n =? 0 then None else Some n
  | None => None
  end.

Definition drop_zero_float (o : option float) : option float :=
  match o with
  | Some x => if PrimFloat.eqb x 0 then None else Some x
  | None => None
  end.

Definition drop_false (o : option bool) : option bool :=
  match o with
  | Some true => Some true
  | _ => None
  end.

(** The request with every zero and every [False] among the fields the
    pricing reads left out. *)
Definition drop_falsy (r : QuoteRequest) : QuoteRequest :=
  {| quote_type := quote_type r; zip_code := zip_code r;
     age := drop_zero (age r);
     vehicle_year := drop_zero (vehicle_year r);
     vehicle_make := vehicle_make r; vehicle_model := vehicle_model r;
     accidents_last_5_years := drop_zero (accidents_last_5_years r);
     home_value := drop_zero_float (home_value r);
     square_feet := square_feet r;
     security_system := drop_false (security_system r) |}.

(** Two requests agree on every field that the pricing reads. *)
Definition same_rating_factors (r1 r2 : QuoteRequest) : Prop :=
  quote_type r1 = quote_type r2 /\ age r1 = age r2
  /\ vehicle_year r1 = vehicle_year r2
  /\ accidents_last_5_years r1 = accidents_last_5_years r2
  /\ home_value r1 = home_value r2
  /\ security_system r1 = security_system r2.

(** ** Lists of prices *)

(** The monthly prices of the three offers, in the order of the offers. *)
Definition prices (r : QuoteRequest) : list float := map monthly (carriers r).

(** Every price of the first list is at most the price at the same place in
    the second, and the lists have the same length. *)
Fixpoint all_le (l1 l2 : list float) : bool :=
  match l1, l2 with
  | [], [] => true
  | p :: l1', q :: l2' => PrimFloat.leb p q && all_le l1' l2'
  | _, _ => false
  end.

(** The same with a strict comparison. *)
Fixpoint all_lt (l1 l2 : list float) : bool :=
  match l1, l2 with
  | [], [] => true
  | p :: l1', q :: l2' => PrimFloat.ltb p q && all_lt l1' l2'
  | _, _ => false
  end.

(** Every price of the list lies between [lo] and [hi]. *)
Definition within (lo hi : float) (l : list float) : bool :=
  forallb (fun p => PrimFloat.leb lo p && PrimFloat.leb p hi) l.

Section RatingFactors.
Local Open Scope float_scope.

(** The modifier of an auto quote as a function of the three things the
    code reads: whether the age test and the vehicle-year test succeed, and
    the accident count after [or 0]. *)
Definition auto_modifier (young old : bool) (a : Z) : float :=
  let m := 0.0 in
  let m := if young then m + 0.25 else m in
  let m := if old then m + 0.15 else m in
  if (0 <? a)%Z then m + Py.min 0.4 (0.1 * Py.float_of_int a) else m.

(** The modifier of a home quote as a function of the age test, the
    home-value test and the truth value of the security system. *)
Definition home_modifier (young pricey secure : bool) : float :=
  let m := 0.0 in
  let m := if young then m + 0.25 else m in
  let m := if pricey then m + 0.2 else m in
  if secure then m - 0.05 else m.

(** The three rounded prices for a base price and a modifier. *)
Definition offers_for (base m : float) : list float :=
  [ Py.round2 (base * (1 + m) / 12 * 0.95);
    Py.round2 (base * (1 + m) / 12 * 1.02);
    Py.round2 (base * (1 + m) / 12 * 0.88) ].

(** The accident counts that pass validation. *)
Definition accident_counts : list Z := map Z.of_nat (seq 0 11).

Definition flags : list bool := [false; true].

End RatingFactors.

(** ** The [Quote] schema of [schemas.py] *)

Module Schemas.

Record Quote : Type := {
  quote_type : QuoteType;
  zip_code : string;
  age : option Z;
  vehicle_year : option Z;
  vehicle_make : option string;
  vehicle_model : option string;
  accidents_last_5_years : option Z;
  home_value : option float;
  square_feet : option Z;
  security_system : option bool;
  results : option (list CarrierOffer)
}.

(** The constraints the schema declares with [Field]. *)
Definition Quote_constraints (q : Quote) : bool :=
  in_range 16 120 (age q)
  && in_range 1980 2100 (vehicle_year q)
  && in_range 0 10 (accidents_last_5_years q)
  && float_at_least 0 (home_value q)
  && at_least 100 (square_feet q).

End Schemas.

(** The dictionary [doc] of [create_quote] read as a [Quote]: the keys of
    [payload.model_dump()] and the key [results]. *)
Definition Quote_of_doc (doc : NewDocument) : Schemas.Quote :=
  let p := new_fields doc in
  {| Schemas.quote_type := quote_type p;
     Schemas.zip_code := zip_code p;
     Schemas.age := age p;
     Schemas.vehicle_year := vehicle_year p;
     Schemas.vehicle_make := vehicle_make p;
     Schemas.vehicle_model := vehicle_model p;
     Schemas.accidents_last_5_years := accidents_last_5_years p;
     Schemas.home_value := home_value p;
     Schemas.square_feet := square_feet p;
     Schemas.security_system := security_system p;
     Schemas.results := Some (new_results doc) |}.

(** ** Python strings *)

Module PyStr.

(** A [str] is kept as its UTF-8 bytes.  A byte of the form [10xxxxxx]
    continues the character the bytes before it began. *)
Definition is_continuation (c : Ascii.ascii) : bool :=
  let n := Ascii.N_of_ascii c in
  (128 <=? n)%N && (n <? 192)%N.

(** [len(s)]: the number of characters. *)
Fixpoint len (s : string) : nat :=
  match s with
  | EmptyString => 0%nat
  | String c s' => if is_continuation c then len s' else S (len s')
  end.

(** [s[:n]]: the first [n] characters. *)
Fixpoint take (n : nat) (s : string) : string :=
  match s with
  | EmptyString => EmptyString
  | String c s' =>
      if is_continuation c then String c (take n s')
      else match n with
           | O => EmptyString
           | S n' => String c (take n' s')
           end
  end.

(** Truth value of the result of [os.getenv]: [None] and the empty string
    are false. *)
Definition truthy (o : option string) : bool :=
  match o with
  | Some EmptyString => false
  | Some _ => true
  | None => false
  end.

End PyStr.

(** ** The diagnostic endpoint [test_database] *)

Module TestDatabase.

(** What reading the attribute [name] of the handle gives: a value, no such
    attribute, or an exception other than [AttributeError]. *)
Inductive Attribute : Type :=
| AttrValue (s : string)
| AttrMissing
| AttrRaises (e : Exception).

(** The dictionary [response]. *)
Record Response : Type := {
  backend : string;
  database : string;
  database_url : option string;
  database_name : option string;
  connection_status : string;
  collections : list string
}.

Definition set_database (v : string) (r : Response) : Response :=
  {| backend := backend r; database := v; database_url := database_url r;
     database_name := database_name r;
     connection_status := connection_status r;
     collections := collections r |}.

Definition set_database_url (v : option string) (r : Response) : Response :=
  {| backend := backend r; database := database r; database_url := v;
     database_name := database_name r;
     connection_status := connection_status r;
     collections := collections r |}.

Definition set_database_name (v : option string) (r : Response) : Response :=
  {| backend := backend r; database := database r;
     database_url := database_url r; database_name := v;
     connection_status := connection_status r;
     collections := collections r |}.

Definition set_connection_status (v : string) (r : Response) : Response :=
  {| backend := backend r; database := database r;
     database_url := database_url r; database_name := database_name r;
     connection_status := v; collections := collections r |}.

Definition set_collections (v : list string) (r : Response) : Response :=
  {| backend := backend r; database := database r;
     database_url := database_url r; database_name := database_name r;
     connection_status := connection_status r; collections := v |}.

Section Endpoint.
Local Open Scope string_scope.

(** The handle [db] is an object of the database driver: reading its
    attribute [name] and calling [list_collection_names()] on it are taken as
    parameters, and so is the environment read by [os.getenv]. *)
Variable Handle : Type.
Variable name_of : Handle -> Attribute.
Variable list_collection_names : Handle -> Exception + list string.
Variable getenv : string -> option string.

Definition test_database (db : option Handle) : Response :=
  let response :=
    {| backend := "✅ Running"; database := "❌ Not Available";
       database_url := None; database_name := None;
       connection_status := "Not Connected"; collections := [] |} in
  let response :=
    match db with
    | Some d =>
        let response := set_database "✅ Available" response in
        let response := set_database_url (Some "✅ Configured") response in
        match name_of d with
        | AttrRaises e =>
            set_database ("❌ Error: " ++ PyStr.take 50 e) response
        | attribute =>
            let response :=
              set_database_name
                (Some match attribute with
                      | AttrValue s => s
                      | _ => "✅ Connected"
                      end) response in
            let response := set_connection_status "Connected" response in
            match list_collection_names d with
            | inr collections =>
                let response :=
                  set_collections (firstn 10 collections) response in
                set_database "✅ Connected & Working" response
            | inl e =>
                set_database ("⚠️  Connected but Error: " ++ PyStr.take 50 e) response
            end
        end
    | None => set_database "⚠️  Available but not initialized" response
    end in
  let response :=
    set_database_url
      (Some (if PyStr.truthy (getenv "DATABASE_URL")
             then "✅ Set" else "❌ Not Set")) response in
  set_database_name
    (Some (if PyStr.truthy (getenv "DATABASE_NAME")
           then "✅ Set" else "❌ Not Set")) response.

End Endpoint.

End TestDatabase.

(** Handles used as concrete inputs: handle 0 answers, handle 1 has no
    attribute [name] and fails to list its collections, every other handle
    raises when its name is read. *)
Definition sample_name_of (h : nat) : TestDatabase.Attribute :=
  match h with
  | O => TestDatabase.AttrValue "insurance"
  | S O => TestDatabase.AttrMissing
  | _ => TestDatabase.AttrRaises long_diagnostic
  end.

Definition sample_collection_names (h : nat) : Exception + list string :=
  match h with
  | O => inr ["quote"; "user"; "product"; "c4"; "c5"; "c6"; "c7"; "c8";
              "c9"; "c10"; "c11"; "c12"]%string
  | _ => inl long_diagnostic
  end.

Definition sample_getenv (k : string) : option string :=
  if String.eqb k "DATABASE_URL" then Some "mongodb://localhost:27017"%string
  else None.

Section PriceOrder.
Local Open Scope float_scope.

(** The two comparisons between the three monthly prices, for a given base
    price and modifier. *)
Definition ordered_prices (base m : float) : bool :=
  PrimFloat.leb (Py.round2 (base * (1 + m) / 12 * 0.88))
                (Py.round2 (base * (1 + m) / 12 * 0.95))
  && PrimFloat.leb (Py.round2 (base * (1 + m) / 12 * 0.95))
                   (Py.round2 (base * (1 + m) / 12 * 1.02)).

End PriceOrder.

(** ** Proof automation *)

Ltac case_below o bound :=
  let k := fresh "k" in destruct o as [k|]; [destruct (k <? bound)%Z|].

Ltac case_above o bound :=
  let x := fresh "x" in
  destruct o as [x|]; [destruct (PrimFloat.ltb bound x)|].

(** ** Properties of the pricing computation *)

Section PricingFacts.
Local Open Scope float_scope.

Lemma valid_fields (r : QuoteRequest) :
  valid r ->
  in_range 16 120 (age r) = true
  /\ in_range 1980 2100 (vehicle_year r) = true
  /\ in_range 0 10 (accidents_last_5_years r) = true.
Proof.
  unfold valid, field_constraints. intros H.
  repeat (apply andb_prop in H; destruct H as [H ?]). auto.
Qed.

Lemma and_lt_present (lo hi bound n : Z) :
  (0 < lo)%Z -> in_range lo hi (Some n) = true ->
  Py.and_lt (Some n) bound = (n <? bound)%Z.
Proof.
  unfold in_range, Py.and_lt. intros Hlo H.
  apply andb_prop in H. destruct H as [H _]. apply Z.leb_le in H.
  replace (n =? 0)%Z with false by (symmetry; apply Z.eqb_neq; lia).
  reflexivity.
Qed.

Lemma or_zero_present (n : Z) : Py.or_zero (Some n) = n.
Proof.
  unfold Py.or_zero. destruct (Z.eqb_spec n 0); congruence.
Qed.

(** A float above the home-value threshold is not a zero, so its truth
    value does not change the outcome of the test. *)
Lemma and_gt_present (x : float) :
  Py.and_gt (Some x) 750000 = PrimFloat.ltb 750000 x.
Proof.
  unfold Py.and_gt. rewrite FloatAxioms.eqb_spec, ltb_spec.
  remember (Prim2SF 750000) as b eqn:Eb. vm_compute in Eb.
  remember (Prim2SF 0) as z eqn:Ez. vm_compute in Ez. subst b z.
  destruct (Prim2SF x) as [s|s| |s m e]; try reflexivity; destruct s;
    try reflexivity.
  all: unfold SFeqb, SFltb, SFcompare; cbn;
    now rewrite ?andb_true_l.
Qed.

(** On a request that passes validation the accumulated modifier of
    [create_quote] is the one the written rules give. *)
Lemma modifiers_spec (r : QuoteRequest) :
  valid r -> modifiers r = spec_modifier r.
Proof.
  intros Hv. apply valid_fields in Hv. destruct Hv as (Ha & Hy & Hn).
  unfold modifiers, spec_modifier.
  destruct r as [qt z a y mk md n v sq s]; cbn [quote_type age vehicle_year
    accidents_last_5_years home_value security_system] in *.
  assert (Ea : Py.and_lt a 25
               = match a with Some k => (k <? 25)%Z | None => false end).
  { destruct a as [k|]; [apply (and_lt_present 16 120); [lia|assumption]
                        | reflexivity]. }
  assert (Ey : Py.and_lt y 2005
               = match y with Some k => (k <? 2005)%Z | None => false end).
  { destruct y as [k|]; [apply (and_lt_present 1980 2100); [lia|assumption]
                        | reflexivity]. }
  assert (Ev : Py.and_gt v 750000
               = match v with
                 | Some x => PrimFloat.ltb 750000 x
                 | None => false
                 end).
  { destruct v as [x|]; [apply and_gt_present | reflexivity]. }
  rewrite Ea, Ey, Ev. clear Ea Ey Ev Ha Hy Hn.
  destruct qt.
  - destruct a as [k|]; [destruct (k <? 25)%Z|];
      (destruct y as [j|]; [destruct (j <? 2005)%Z|]);
      (destruct n as [i|]; [rewrite or_zero_present; destruct (0 <? i)%Z|]);
      reflexivity.
  - destruct a as [k|]; [destruct (k <? 25)%Z|];
      (destruct v as [x|]; [destruct (PrimFloat.ltb 750000 x)|]);
      destruct s as [[|]|]; reflexivity.
Qed.

End PricingFacts.

Section PricingClaims.
Local Open Scope float_scope.

Lemma in_range_bounds (lo hi n : Z) :
  in_range lo hi (Some n) = true -> (lo <= n <= hi)%Z.
Proof.
  unfold in_range. intros H. apply andb_prop in H. destruct H as [H1 H2].
  apply Z.leb_le in H1. apply Z.leb_le in H2. lia.
Qed.

(** The accident counts that pass validation. *)
Lemma accidents_enum (n : Z) :
  in_range 0 10 (Some n) = true -> In n (map Z.of_nat (seq 0 11)).
Proof.
  intros H. apply in_range_bounds in H.
  rewrite <- (Z2Nat.id n) by lia.
  apply in_map, in_seq. lia.
Qed.

Lemma ordered_prices_valid (r : QuoteRequest) :
  valid r -> ordered_prices (base_price r) (modifiers r) = true.
Proof.
  intros Hv. rewrite (modifiers_spec r Hv).
  apply valid_fields in Hv. destruct Hv as (_ & _ & Hn).
  unfold spec_modifier, base_price.
  destruct r as [qt z a y mk md n v sq s]; cbn [quote_type age vehicle_year
    accidents_last_5_years home_value security_system] in *.
  destruct qt.
  - destruct n as [i|].
    + apply accidents_enum in Hn. cbn in Hn.
      repeat (destruct Hn as [Hn|Hn]; [subst i|]); [..|contradiction];
        case_below a 25%Z; case_below y 2005%Z; vm_compute; reflexivity.
    + case_below a 25%Z; case_below y 2005%Z; vm_compute; reflexivity.
  - case_below a 25%Z; case_above v 750000;
      destruct s as [[|]|]; vm_compute; reflexivity.
Qed.

(** C1: on every request that satisfies the field constraints, the pricing
    of [create_quote] yields exactly three offers, and their monthly prices
    are [round(base_price * (1 + modifier) / 12 * multiplier, 2)] for the
    multipliers 0.95, 1.02 and 0.88 in this order, with the base price
    600.00 for auto and 1200.00 for home and the modifier accumulated from
    0.0 by the written rules. *)
Theorem carriers_follow_pricing_rules (r : QuoteRequest) :
  valid r ->
  List.length (carriers r) = 3%nat
  /\ map monthly (carriers r)
     = [spec_monthly r 0.95; spec_monthly r 1.02; spec_monthly r 0.88].
Proof.
  intros Hv. split; [reflexivity|].
  unfold carriers, monthly_price, spec_monthly. cbn [map monthly].
  rewrite (modifiers_spec r Hv). reflexivity.
Qed.

Lemma carriers_follow_pricing_rules_witness :
  valid young_driver_request
  /\ map monthly (carriers young_driver_request) = [80.75; 86.7; 74.8].
Proof.
  assert (Hv : valid young_driver_request)
    by (vm_compute; reflexivity).
  split; [exact Hv|].
  destruct (carriers_follow_pricing_rules _ Hv) as [_ E].
  rewrite E. vm_compute. reflexivity.
Defined.

(** C3: an auto request whose age is at least 25, whose vehicle year is at
    least 2005 and which reports no accident has modifier 0, and its three
    monthly prices are 47.50, 51.00 and 44.00. *)
Theorem clean_auto_prices (r : QuoteRequest) (a y : Z) :
  valid r ->
  quote_type r = auto ->
  age r = Some a -> (25 <= a)%Z ->
  vehicle_year r = Some y -> (2005 <= y)%Z ->
  accidents_last_5_years r = Some 0%Z ->
  modifiers r = 0
  /\ map monthly (carriers r) = [47.5; 51; 44].
Proof.
  intros _ Hq Ha Hage Hy Hyear Hn.
  assert (Em : modifiers r = 0).
  { unfold modifiers. rewrite Hq, Ha, Hy, Hn. unfold Py.and_lt.
    replace (a <? 25)%Z with false by (symmetry; apply Z.ltb_ge; lia).
    replace (y <? 2005)%Z with false by (symmetry; apply Z.ltb_ge; lia).
    rewrite !andb_false_r. reflexivity. }
  split; [exact Em|].
  unfold carriers, monthly_price, base_price. cbn [map monthly].
  rewrite Em, Hq. vm_compute. reflexivity.
Qed.

Lemma clean_auto_prices_witness :
  modifiers clean_auto_request = 0
  /\ map monthly (carriers clean_auto_request) = [47.5; 51; 44].
Proof.
  apply (clean_auto_prices clean_auto_request 40%Z 2018%Z).
  - vm_compute; reflexivity.
  - reflexivity.
  - reflexivity.
  - lia.
  - reflexivity.
  - lia.
  - reflexivity.
Defined.

(** C4, as the code has it: a home request with home value 800000, a
    security system and age 30 has the modifier [0.2 - 0.05] computed on
    binary64 numbers, which is 0.15000000000000002; the effective monthly
    base is exactly 115.00 and the three monthly prices are 109.25, 117.30
    and 101.20. *)
Theorem secured_home_prices (r : QuoteRequest) :
  quote_type r = home ->
  age r = Some 30%Z ->
  home_value r = Some 800000 ->
  security_system r = Some true ->
  modifiers r = 0.2 - 0.05
  /\ modifiers r = 0.15000000000000002
  /\ base_price r * (1 + modifiers r) / 12 = 115
  /\ map monthly (carriers r) = [109.25; 117.3; 101.2].
Proof.
  intros Hq Ha Hv Hs.
  assert (Em : modifiers r = 0.15000000000000002).
  { unfold modifiers. rewrite Hq, Ha, Hv, Hs. vm_compute. reflexivity. }
  assert (Eb : base_price r = 1200) by (unfold base_price; now rewrite Hq).
  unfold carriers, monthly_price. cbn [map monthly]. rewrite Em, Eb.
  repeat split; vm_compute; reflexivity.
Qed.

Lemma secured_home_prices_witness :
  map monthly (carriers secured_home_request) = [109.25; 117.3; 101.2].
Proof.
  apply (secured_home_prices secured_home_request); reflexivity.
Defined.

(** C4, as the specification words it, fails on the modifier: the value
    accumulated for this request is not the float 0.15. *)
Lemma secured_home_modifier_inexact :
  modifiers secured_home_request <> 0.15.
Proof.
  intros H.
  apply (f_equal (fun m => PrimFloat.eqb m 0.15)) in H.
  vm_compute in H. discriminate.
Qed.

(** C5: on an auto request reporting [a > 0] accidents, the accidents rule
    adds [min(0.4, 0.1 * a)] to the modifier accumulated from the other
    rules; at [a = 10] what it adds is 0.4 and not 1.0. *)
Theorem accidents_contribution_capped (r : QuoteRequest) (a : Z) :
  valid r ->
  quote_type r = auto ->
  accidents_last_5_years r = Some a ->
  (0 < a)%Z ->
  modifiers r
  = modifiers (without_accidents r) + Py.min 0.4 (0.1 * Py.float_of_int a)
  /\ (a = 10%Z ->
      Py.min 0.4 (0.1 * Py.float_of_int a) = 0.4
      /\ Py.min 0.4 (0.1 * Py.float_of_int a) <> 1.0
      /\ modifiers r = modifiers (without_accidents r) + 0.4).
Proof.
  intros _ Hq Hn Hpos.
  assert (E : modifiers r
              = modifiers (without_accidents r)
                + Py.min 0.4 (0.1 * Py.float_of_int a)).
  { unfold modifiers, without_accidents.
    cbn [quote_type age vehicle_year accidents_last_5_years home_value
         security_system].
    rewrite Hq, Hn, or_zero_present.
    replace (0 <? a)%Z with true by (symmetry; apply Z.ltb_lt; lia).
    cbn [Py.or_zero Z.ltb Z.compare].
    destruct (Py.and_lt (age r) 25), (Py.and_lt (vehicle_year r) 2005);
      reflexivity. }
  split; [exact E|].
  intros ->. rewrite E.
  assert (Ecap : Py.min 0.4 (0.1 * Py.float_of_int 10) = 0.4)
    by (vm_compute; reflexivity).
  rewrite Ecap. repeat split.
  intros H. apply (f_equal (fun m => PrimFloat.eqb m 1.0)) in H.
  vm_compute in H. discriminate.
Qed.

Lemma accidents_contribution_capped_witness :
  modifiers ten_accidents_request
  = modifiers (without_accidents ten_accidents_request) + 0.4.
Proof.
  assert (H : valid ten_accidents_request) by (vm_compute; reflexivity).
  destruct (accidents_contribution_capped ten_accidents_request 10%Z H
              eq_refl eq_refl eq_refl) as [_ Hcap].
  destruct (Hcap eq_refl) as (_ & _ & E). exact E.
Defined.

Lemma carriers_depend_on (r1 r2 : QuoteRequest) :
  base_price r1 = base_price r2 ->
  modifiers r1 = modifiers r2 ->
  carriers r1 = carriers r2.
Proof.
  intros Eb Em. unfold carriers, monthly_price. now rewrite Eb, Em.
Qed.

(** C6: pricing ignores the fields of the other quote type.  Two valid home
    requests that agree on everything but the auto fields get the same
    offers, and two valid auto requests that agree on everything but the
    home fields get the same offers. *)
Theorem pricing_ignores_irrelevant_fields (r1 r2 : QuoteRequest) :
  valid r1 -> valid r2 ->
  (quote_type r1 = home -> same_but_auto_fields r1 r2 ->
   carriers r1 = carriers r2)
  /\ (quote_type r1 = auto -> same_but_home_fields r1 r2 ->
      carriers r1 = carriers r2).
Proof.
  intros _ _. split.
  - intros Hq (Eq & _ & Ea & Ev & _ & Es).
    apply carriers_depend_on.
    + unfold base_price. now rewrite <- Eq.
    + unfold modifiers. rewrite <- Eq, <- Ea, <- Ev, <- Es, Hq. reflexivity.
  - intros Hq (Eq & _ & Ea & Ey & _ & _ & En).
    apply carriers_depend_on.
    + unfold base_price. now rewrite <- Eq.
    + unfold modifiers. rewrite <- Eq, <- Ea, <- Ey, <- En, Hq. reflexivity.
Qed.

Lemma pricing_ignores_irrelevant_fields_witness :
  carriers secured_home_request = carriers secured_home_with_car
  /\ carriers young_driver_request = carriers young_driver_with_house.
Proof.
  assert (V1 : valid secured_home_request) by (vm_compute; reflexivity).
  assert (V2 : valid secured_home_with_car) by (vm_compute; reflexivity).
  assert (V3 : valid young_driver_request) by (vm_compute; reflexivity).
  assert (V4 : valid young_driver_with_house) by (vm_compute; reflexivity).
  split.
  - apply (proj1 (pricing_ignores_irrelevant_fields _ _ V1 V2)).
    + reflexivity.
    + repeat split.
  - apply (proj2 (pricing_ignores_irrelevant_fields _ _ V3 V4)).
    + reflexivity.
    + repeat split.
Defined.

(** C10: on every request that satisfies the field constraints the offers
    come in the order BlueShield Mutual, NorthStar Insurance, Aurora
    Coverage Co., and Aurora's monthly price is at most BlueShield's, which
    is at most NorthStar's. *)
Theorem offers_order (r : QuoteRequest) :
  valid r ->
  map name (carriers r)
  = ["BlueShield Mutual"; "NorthStar Insurance"; "Aurora Coverage Co."]%string
  /\ exists blue north aurora : float,
       map monthly (carriers r) = [blue; north; aurora]
       /\ PrimFloat.leb aurora blue = true
       /\ PrimFloat.leb blue north = true.
Proof.
  intros Hv. split; [reflexivity|].
  exists (monthly_price r 0.95), (monthly_price r 1.02), (monthly_price r 0.88).
  split; [reflexivity|].
  pose proof (ordered_prices_valid r Hv) as H.
  unfold ordered_prices in H. apply andb_prop in H. exact H.
Qed.

Lemma offers_order_witness :
  map name (carriers young_driver_request)
  = ["BlueShield Mutual"; "NorthStar Insurance"; "Aurora Coverage Co."]%string.
Proof.
  assert (Hv : valid young_driver_request) by (vm_compute; reflexivity).
  exact (proj1 (offers_order young_driver_request Hv)).
Defined.

End PricingClaims.

(** ** Properties of persistence and listing *)

Section StoreFacts.

Lemma collection_insert (c : string) (d : SpecStore.t) (x : Document)
      (n : N) (p : list (option Exception)) :
  SpecStore.collection c
    {| SpecStore.inserted := SpecStore.inserted d ++ [(c, x)];
       SpecStore.next_oid := n; SpecStore.pending := p |}
  = SpecStore.collection c d ++ [x].
Proof.
  unfold SpecStore.collection. cbn [SpecStore.inserted].
  rewrite filter_app, map_app. cbn [filter fst].
  rewrite String.eqb_refl. reflexivity.
Qed.


Lemma length_truncated (s : string) (n : nat) :
  (n <= String.length s)%nat -> String.length (truncated n s) = n.
Proof.
  unfold truncated. revert n.
  induction s as [|c s IH]; intros [|n] H; cbn in *; try reflexivity; try lia.
  rewrite IH by lia. reflexivity.
Qed.

Lemma length_append (s1 s2 : string) :
  String.length (s1 ++ s2) = (String.length s1 + String.length s2)%nat.
Proof.
  induction s1 as [|c s1 IH]; cbn; [reflexivity | now rewrite IH].
Qed.

End StoreFacts.

Section StoreClaims.
Local Open Scope string_scope.

Lemma create_quote_succeeds (d : SpecStore.t) (payload : QuoteRequest) :
  SpecStore.fault d = None ->
  exists (d' : SpecStore.t) (resp : QuoteResponse.t),
    create_quote (M := SpecStore.database) (Some d) payload
    = (Some d', inr resp)
    /\ SpecStore.collection "quote" d'
       = (SpecStore.collection "quote" d
          ++ [{| _id := ObjectId (SpecStore.next_oid d); fields := payload;
                 results := carriers payload |}])%list.
Proof.
  intros Hf. unfold create_quote. cbn [create_document SpecStore.database].
  unfold SpecStore.create_document. rewrite Hf.
  eexists. eexists. split; [reflexivity|].
  apply collection_insert.
Qed.

(** C2: when the store holds no quote, a quote is created, and the store
    then answers the read, [list_quotes] with [limit = 1] returns exactly
    the record just created: its identifier is the one [create_quote]
    returned, its fields are the submitted ones, and its quote type, zip
    code and results are those of the response of [create_quote]. *)
Theorem create_then_list_one
        (d d' : SpecStore.t) (payload : QuoteRequest) (resp : QuoteResponse.t) :
  SpecStore.collection "quote" d = [] ->
  create_quote (M := SpecStore.database) (Some d) payload
  = (Some d', inr resp) ->
  SpecStore.fault d' = None ->
  list_quotes (M := SpecStore.database) (Some d') 1
  = (Some (SpecStore.after_call d'), inr [listed_record payload resp])
  /\ QuoteType_str (quote_type (fields (listed_record payload resp)))
     = QuoteResponse.quote_type resp
  /\ zip_code (fields (listed_record payload resp))
     = QuoteResponse.zip_code resp
  /\ results (listed_record payload resp) = QuoteResponse.results resp.
Proof.
  intros Hempty Hcreate Hread.
  unfold create_quote in Hcreate.
  cbn [create_document SpecStore.database] in Hcreate.
  unfold SpecStore.create_document in Hcreate.
  destruct (SpecStore.fault d) as [e|]; [discriminate|].
  injection Hcreate as Hd Hresp. subst resp.
  assert (Hdocs : SpecStore.collection "quote" d'
                  = [{| _id := ObjectId (SpecStore.next_oid d);
                        fields := payload; results := carriers payload |}]).
  { subst d'. rewrite collection_insert, Hempty. reflexivity. }
  repeat split.
  unfold list_quotes. cbn [get_documents SpecStore.database].
  unfold SpecStore.get_documents. rewrite Hread, Hdocs. reflexivity.
Qed.

Lemma create_then_list_one_witness :
  exists (d' : SpecStore.t) (resp : QuoteResponse.t),
    create_quote (M := SpecStore.database) (Some (SpecStore.empty []))
      secured_home_request = (Some d', inr resp)
    /\ list_quotes (M := SpecStore.database) (Some d') 1
       = (Some (SpecStore.after_call d'),
          inr [listed_record secured_home_request resp]).
Proof.
  destruct (create_quote_succeeds (SpecStore.empty []) secured_home_request
              eq_refl) as (d' & resp & Hc & Hdocs).
  exists d', resp. split; [exact Hc|].
  refine (proj1 (create_then_list_one (SpecStore.empty []) d'
                   secured_home_request resp eq_refl Hc _)).
  unfold create_quote in Hc. cbn in Hc. injection Hc as Hd _. subst d'.
  reflexivity.
Defined.



End StoreClaims.

(** ** Properties of the handlers, whatever the database module does *)

Section HandlerClaims.
Variable M : DatabaseModule.
Local Open Scope string_scope.

(** The response of a successful [create_quote] carries the offers the
    pricing computed for the payload, whatever the store did. *)
Lemma create_quote_response
      (db db' : option (Database M)) (payload : QuoteRequest)
      (resp : QuoteResponse.t) :
  create_quote db payload = (db', inr resp) ->
  QuoteResponse.results resp = carriers payload
  /\ QuoteResponse.quote_type resp = QuoteType_str (quote_type payload)
  /\ QuoteResponse.zip_code resp = zip_code payload.
Proof.
  unfold create_quote. destruct db as [d|]; [|discriminate].
  destruct (create_document M d "quote" _) as [d' [x|i]]; [discriminate|].
  intros H. injection H as _ <-. repeat split.
Qed.

(** C7, as the code has it: [create_quote] ends in an error exactly when
    the store is not configured or the write fails; the error always has
    status 500; a write failure is surfaced with the whole diagnostic after
    the words "Failed to save: ", and the store is left as the single
    failed write left it. *)
Theorem create_quote_server_errors
        (db : option (Database M)) (payload : QuoteRequest) :
  let doc := {| new_fields := payload; new_results := carriers payload |} in
  ((exists e : HTTPException, snd (create_quote db payload) = inl e)
   <-> (db = None
        \/ exists (d : Database M) (x : Exception),
            db = Some d /\ snd (create_document M d "quote" doc) = inl x))
  /\ (forall e : HTTPException,
        snd (create_quote db payload) = inl e -> status_code e = 500%Z)
  /\ (db = None ->
      create_quote db payload
      = (None, inl {| status_code := 500;
                      detail := "Database not configured" |}))
  /\ (forall (d d' : Database M) (x : Exception),
        db = Some d ->
        create_document M d "quote" doc = (d', inl x) ->
        create_quote db payload
        = (Some d', inl {| status_code := 500;
                           detail := "Failed to save: " ++ x |})).
Proof.
  intros doc. subst doc. unfold create_quote.
  destruct db as [d|].
  - destruct (create_document M d "quote"
                {| new_fields := payload; new_results := carriers payload |})
      as [d' [x|i]] eqn:Ew; cbn [snd].
    + repeat split.
      * intros _. right. exists d, x. split; [reflexivity | now rewrite Ew].
      * intros _. eexists. reflexivity.
      * intros e He. injection He as <-. reflexivity.
      * discriminate.
      * intros d0 d1 x0 Hd Hw. injection Hd as <-. rewrite Ew in Hw.
        injection Hw as <- <-. reflexivity.
    + repeat split.
      * intros [e He]. discriminate.
      * intros [Hn | (d0 & x & Hd & Hx)]; [discriminate|].
        injection Hd as <-. rewrite Ew in Hx. discriminate.
      * intros e He. discriminate.
      * discriminate.
      * intros d0 d1 x0 Hd Hw. injection Hd as <-. rewrite Ew in Hw.
        discriminate.
  - cbn [snd]. repeat split.
    + intros _. left. reflexivity.
    + intros _. eexists. reflexivity.
    + intros e He. injection He as <-. reflexivity.
    + intros d d' x Hd. discriminate.
Qed.

(** C8: a body that violates a declared range constraint, such as age 15 or
    vehicle year 1975, is answered with a validation error; [create_quote]
    and its pricing are not run on it and the store is left untouched. *)
Theorem invalid_request_rejected
        (db : option (Database M)) (body : QuoteRequest) :
  (field_constraints body = false ->
   post_api_quotes db body = (db, RequestValidationError))
  /\ (age body = Some 15%Z ->
      post_api_quotes db body = (db, RequestValidationError))
  /\ (vehicle_year body = Some 1975%Z ->
      post_api_quotes db body = (db, RequestValidationError)).
Proof.
  assert (Hrej : field_constraints body = false ->
                 post_api_quotes db body = (db, RequestValidationError)).
  { intros H. unfold post_api_quotes. rewrite H. reflexivity. }
  split; [exact Hrej|]. split; intros H; apply Hrej;
    unfold field_constraints; rewrite H; cbn.
  - reflexivity.
  - now rewrite andb_false_r.
Qed.

End HandlerClaims.

Section HandlerWitnesses.
Local Open Scope string_scope.

Lemma create_quote_server_errors_witness :
  create_quote (M := SpecStore.database)
    (Some (SpecStore.empty [Some long_diagnostic; None])) young_driver_request
  = (Some (SpecStore.empty [None]),
     inl {| status_code := 500;
            detail := "Failed to save: " ++ long_diagnostic |}).
Proof.
  exact (proj2 (proj2 (proj2
           (create_quote_server_errors SpecStore.database
              (Some (SpecStore.empty [Some long_diagnostic; None]))
              young_driver_request)))
           (SpecStore.empty [Some long_diagnostic; None])
           (SpecStore.empty [None]) long_diagnostic eq_refl eq_refl).
Defined.

(** C7, as the specification words it, fails on the truncation: a write
    that fails with a diagnostic of 71 characters is surfaced with all of
    them, and the detail is no cut of the diagnostic or of the whole
    message at a shorter length. *)
Lemma write_error_not_truncated :
  exists e : HTTPException,
    snd (create_quote (M := SpecStore.database)
           (Some (SpecStore.empty [Some long_diagnostic]))
           young_driver_request) = inl e
    /\ detail e = "Failed to save: " ++ long_diagnostic
    /\ String.length (detail e) = 87%nat
    /\ ~ (exists n : nat,
            (n < String.length long_diagnostic)%nat
            /\ detail e = "Failed to save: " ++ truncated n long_diagnostic)
    /\ ~ (exists n : nat,
            (n < String.length ("Failed to save: " ++ long_diagnostic))%nat
            /\ detail e
               = truncated n ("Failed to save: " ++ long_diagnostic)).
Proof.
  eexists. split; [reflexivity|]. cbn [detail].
  split; [reflexivity|]. split; [reflexivity|]. split.
  - intros (n & Hn & H). apply (f_equal String.length) in H.
    rewrite !length_append, length_truncated in H by lia. lia.
  - intros (n & Hn & H). apply (f_equal String.length) in H.
    rewrite length_truncated in H by lia. lia.
Qed.

Lemma invalid_request_rejected_witness :
  post_api_quotes (M := SpecStore.database) (Some (SpecStore.empty []))
    underage_request
  = (Some (SpecStore.empty []), RequestValidationError)
  /\ post_api_quotes (M := SpecStore.database) (Some (SpecStore.empty []))
       vintage_car_request
     = (Some (SpecStore.empty []), RequestValidationError).
Proof.
  split.
  - exact (proj1 (proj2 (invalid_request_rejected SpecStore.database
                           (Some (SpecStore.empty [])) underage_request))
             eq_refl).
  - exact (proj2 (proj2 (invalid_request_rejected SpecStore.database
                           (Some (SpecStore.empty [])) vintage_car_request))
             eq_refl).
Defined.

End HandlerWitnesses.

(** ** Further properties of the pricing *)

Section RatingFactorFacts.
Local Open Scope float_scope.

Lemma prices_offers_for (r : QuoteRequest) :
  prices r = offers_for (base_price r) (modifiers r).
Proof. reflexivity. Qed.

Lemma modifiers_auto (r : QuoteRequest) :
  quote_type r = auto ->
  modifiers r
  = auto_modifier (Py.and_lt (age r) 25) (Py.and_lt (vehicle_year r) 2005)
      (Py.or_zero (accidents_last_5_years r)).
Proof. intros Hq. unfold modifiers, auto_modifier. now rewrite Hq. Qed.

Lemma modifiers_home (r : QuoteRequest) :
  quote_type r = home ->
  modifiers r
  = home_modifier (Py.and_lt (age r) 25) (Py.and_gt (home_value r) 750000)
      (Py.truthy_bool (security_system r)).
Proof. intros Hq. unfold modifiers, home_modifier. now rewrite Hq. Qed.

Lemma prices_auto (r : QuoteRequest) :
  quote_type r = auto ->
  prices r
  = offers_for 600
      (auto_modifier (Py.and_lt (age r) 25) (Py.and_lt (vehicle_year r) 2005)
         (Py.or_zero (accidents_last_5_years r))).
Proof.
  intros Hq. rewrite prices_offers_for, (modifiers_auto r Hq).
  unfold base_price. now rewrite Hq.
Qed.

Lemma prices_home (r : QuoteRequest) :
  quote_type r = home ->
  prices r
  = offers_for 1200
      (home_modifier (Py.and_lt (age r) 25) (Py.and_gt (home_value r) 750000)
         (Py.truthy_bool (security_system r))).
Proof.
  intros Hq. rewrite prices_offers_for, (modifiers_home r Hq).
  unfold base_price. now rewrite Hq.
Qed.

Lemma flags_all (b : bool) : In b flags.
Proof. destruct b; cbn; auto. Qed.

Lemma accident_counts_range (a : Z) :
  (0 <= a <= 10)%Z -> In a accident_counts.
Proof.
  intros H. unfold accident_counts.
  rewrite <- (Z2Nat.id a) by lia. apply in_map, in_seq. lia.
Qed.

Lemma or_zero_accident_count (r : QuoteRequest) :
  valid r -> In (Py.or_zero (accidents_last_5_years r)) accident_counts.
Proof.
  intros Hv. apply valid_fields in Hv. destruct Hv as (_ & _ & Hn).
  destruct (accidents_last_5_years r) as [n|].
  - rewrite or_zero_present. apply accident_counts_range.
    now apply in_range_bounds.
  - apply accident_counts_range. cbn. lia.
Qed.

(** A check that holds on every combination of the two tests and the
    eleven accident counts holds on each of them. *)
Lemma every_auto_profile (P : bool -> bool -> Z -> bool) :
  forallb (fun y => forallb (fun o => forallb (P y o) accident_counts) flags)
    flags = true ->
  forall (y o : bool) (a : Z), In a accident_counts -> P y o a = true.
Proof.
  intros H y o a Ha.
  rewrite forallb_forall in H. specialize (H y (flags_all y)).
  rewrite forallb_forall in H. specialize (H o (flags_all o)).
  rewrite forallb_forall in H. exact (H a Ha).
Qed.

Lemma every_home_profile (P : bool -> bool -> bool -> bool) :
  forallb (fun y => forallb (fun p => forallb (P y p) flags) flags) flags
  = true ->
  forall y p s : bool, P y p s = true.
Proof.
  intros H y p s.
  rewrite forallb_forall in H. specialize (H y (flags_all y)).
  rewrite forallb_forall in H. specialize (H p (flags_all p)).
  rewrite forallb_forall in H. exact (H s (flags_all s)).
Qed.

Lemma and_lt_below (n bound : Z) :
  (0 < n < bound)%Z -> Py.and_lt (Some n) bound = true.
Proof.
  intros H. unfold Py.and_lt.
  replace (n =? 0)%Z with false by (symmetry; apply Z.eqb_neq; lia).
  replace (n <? bound)%Z with true by (symmetry; apply Z.ltb_lt; lia).
  reflexivity.
Qed.

Lemma and_lt_above (n bound : Z) :
  (bound <= n)%Z -> Py.and_lt (Some n) bound = false.
Proof.
  intros H. unfold Py.and_lt.
  replace (n <? bound)%Z with false by (symmetry; apply Z.ltb_ge; lia).
  apply andb_false_r.
Qed.

(** From four accidents on the accidents rule adds its cap. *)
Lemma accidents_cap (a : Z) :
  (4 <= a <= 10)%Z -> Py.min 0.4 (0.1 * Py.float_of_int a) = 0.4.
Proof.
  intros H.
  assert (Ha : In a (map Z.of_nat (seq 4 7))).
  { rewrite <- (Z2Nat.id a) by lia. apply in_map, in_seq. lia. }
  cbn in Ha.
  repeat (destruct Ha as [Ha|Ha]; [subst a; vm_compute; reflexivity|]).
  contradiction.
Qed.

(** The bounds of the prices, by quote type. *)
Lemma prices_within (r : QuoteRequest) :
  valid r ->
  within (match quote_type r with auto => 44 | home => 83.6 end)
         (match quote_type r with auto => 91.8 | home => 147.9 end)
         (prices r) = true.
Proof.
  intros Hv. destruct (quote_type r) eqn:Hq.
  - rewrite (prices_auto r Hq).
    apply (every_auto_profile
             (fun y o a => within 44 91.8 (offers_for 600 (auto_modifier y o a)))).
    + vm_compute. reflexivity.
    + now apply or_zero_accident_count.
  - rewrite (prices_home r Hq).
    apply (every_home_profile
             (fun y p s =>
                within 83.6 147.9 (offers_for 1200 (home_modifier y p s)))).
    vm_compute. reflexivity.
Qed.

End RatingFactorFacts.

Section PricingExtras.
Local Open Scope float_scope.

(** Every monthly price of a valid request lies between 44.00 and 91.80 for
    an auto quote and between 83.60 and 147.90 for a home quote; no valid
    request gets a price that is zero, negative, infinite or NaN. *)
Theorem monthly_prices_bounded (r : QuoteRequest) (c : CarrierOffer) :
  valid r ->
  In c (carriers r) ->
  match quote_type r with
  | auto => PrimFloat.leb 44 (monthly c) = true
            /\ PrimFloat.leb (monthly c) 91.8 = true
  | home => PrimFloat.leb 83.6 (monthly c) = true
            /\ PrimFloat.leb (monthly c) 147.9 = true
  end.
Proof.
  intros Hv Hc. pose proof (prices_within r Hv) as H.
  unfold within in H. rewrite forallb_forall in H.
  specialize (H (monthly c) (in_map monthly _ _ Hc)).
  apply andb_prop in H. destruct (quote_type r); exact H.
Qed.

Lemma monthly_prices_bounded_witness :
  PrimFloat.leb 44 (monthly_price young_driver_request 0.88) = true
  /\ PrimFloat.leb (monthly_price young_driver_request 0.88) 91.8 = true.
Proof.
  assert (Hv : valid young_driver_request) by (vm_compute; reflexivity).
  pose (c := {| name := "Aurora Coverage Co."%string;
                monthly := monthly_price young_driver_request 0.88;
                rating := 4.3;
                features := ["Low deductible options"; "Local agents";
                             "Online portal"]%string;
                cta := "View Details"%string |}).
  assert (Hc : In c (carriers young_driver_request)) by (cbn; auto).
  exact (monthly_prices_bounded young_driver_request c Hv Hc).
Defined.

(** The modifier of a valid request lies between -0.05 and 0.8, and it is
    negative only for a home quote with a security system, no under-25
    surcharge and no surcharge for the home value. *)
Theorem modifiers_range (r : QuoteRequest) :
  valid r ->
  PrimFloat.leb (-0.05) (modifiers r) = true
  /\ PrimFloat.leb (modifiers r) 0.8 = true
  /\ (PrimFloat.ltb (modifiers r) 0 = true <->
      quote_type r = home
      /\ Py.truthy_bool (security_system r) = true
      /\ Py.and_lt (age r) 25 = false
      /\ Py.and_gt (home_value r) 750000 = false).
Proof.
  intros Hv. destruct (quote_type r) eqn:Hq.
  - rewrite (modifiers_auto r Hq).
    pose proof (every_auto_profile
                  (fun y o a =>
                     PrimFloat.leb (-0.05) (auto_modifier y o a)
                     && PrimFloat.leb (auto_modifier y o a) 0.8
                     && negb (PrimFloat.ltb (auto_modifier y o a) 0))
                  ltac:(vm_compute; reflexivity)
                  (Py.and_lt (age r) 25) (Py.and_lt (vehicle_year r) 2005)
                  _ (or_zero_accident_count r Hv)) as H.
    cbv beta in H.
    apply andb_prop in H. destruct H as [H Hneg].
    apply andb_prop in H. destruct H as [Hlo Hhi].
    apply negb_true_iff in Hneg.
    split; [exact Hlo|]. split; [exact Hhi|]. split.
    + rewrite Hneg. discriminate.
    + intros (Habs & _). discriminate.
  - rewrite (modifiers_home r Hq).
    pose proof (every_home_profile
                  (fun y p s =>
                     PrimFloat.leb (-0.05) (home_modifier y p s)
                     && PrimFloat.leb (home_modifier y p s) 0.8
                     && Bool.eqb (PrimFloat.ltb (home_modifier y p s) 0)
                          (s && negb y && negb p))
                  ltac:(vm_compute; reflexivity)
                  (Py.and_lt (age r) 25) (Py.and_gt (home_value r) 750000)
                  (Py.truthy_bool (security_system r))) as H.
    cbv beta in H.
    apply andb_prop in H. destruct H as [H Hsign].
    apply andb_prop in H. destruct H as [Hlo Hhi].
    apply eqb_prop in Hsign. rewrite Hsign.
    split; [exact Hlo|]. split; [exact Hhi|].
    destruct (Py.truthy_bool (security_system r)),
             (Py.and_lt (age r) 25),
             (Py.and_gt (home_value r) 750000); cbn; intuition congruence.
Qed.

Lemma modifiers_range_witness :
  PrimFloat.leb (-0.05) (modifiers secured_home_request) = true
  /\ PrimFloat.leb (modifiers secured_home_request) 0.8 = true.
Proof.
  assert (Hv : valid secured_home_request) by (vm_compute; reflexivity).
  destruct (modifiers_range secured_home_request Hv) as (Hlo & Hhi & _).
  split; assumption.
Defined.

(** On an auto quote every accident count from 4 to 10 gives the same
    offers: the accidents rule has reached its cap. *)
Theorem accidents_beyond_four (r : QuoteRequest) (a1 a2 : Z) :
  quote_type r = auto ->
  (4 <= a1 <= 10)%Z -> (4 <= a2 <= 10)%Z ->
  carriers (with_accidents r (Some a1)) = carriers (with_accidents r (Some a2)).
Proof.
  intros Hq H1 H2. apply carriers_depend_on; [reflexivity|].
  rewrite (modifiers_auto (with_accidents r (Some a1)) Hq),
          (modifiers_auto (with_accidents r (Some a2)) Hq).
  cbn [age vehicle_year accidents_last_5_years with_accidents].
  rewrite !or_zero_present. unfold auto_modifier.
  replace (0 <? a1)%Z with true by (symmetry; apply Z.ltb_lt; lia).
  replace (0 <? a2)%Z with true by (symmetry; apply Z.ltb_lt; lia).
  now rewrite (accidents_cap a1 H1), (accidents_cap a2 H2).
Qed.

Lemma accidents_beyond_four_witness :
  carriers (with_accidents young_driver_request (Some 4%Z))
  = carriers (with_accidents young_driver_request (Some 10%Z)).
Proof.
  apply (accidents_beyond_four young_driver_request 4 10); [reflexivity| |]; lia.
Defined.

Lemma every_accident_pair (P : bool -> bool -> Z -> Z -> bool) :
  forallb (fun y =>
    forallb (fun o =>
      forallb (fun a1 => forallb (P y o a1) accident_counts) accident_counts)
      flags) flags = true ->
  forall (y o : bool) (a1 a2 : Z),
    In a1 accident_counts -> In a2 accident_counts -> P y o a1 a2 = true.
Proof.
  intros H y o a1 a2 H1 H2.
  rewrite forallb_forall in H. specialize (H y (flags_all y)).
  rewrite forallb_forall in H. specialize (H o (flags_all o)).
  rewrite forallb_forall in H. specialize (H a1 H1).
  rewrite forallb_forall in H. exact (H a2 H2).
Qed.

(** On an auto quote a higher accident count never lowers a monthly
    price. *)
Theorem accidents_never_lower_prices (r : QuoteRequest) (a1 a2 : Z) :
  quote_type r = auto ->
  (0 <= a1)%Z -> (a1 <= a2)%Z -> (a2 <= 10)%Z ->
  all_le (prices (with_accidents r (Some a1)))
         (prices (with_accidents r (Some a2))) = true.
Proof.
  intros Hq H0 H12 H10.
  rewrite (prices_auto (with_accidents r (Some a1)) Hq),
          (prices_auto (with_accidents r (Some a2)) Hq).
  cbn [age vehicle_year accidents_last_5_years with_accidents].
  rewrite !or_zero_present.
  pose proof (every_accident_pair
                (fun y o b1 b2 =>
                   (b2 <? b1)%Z
                   || all_le (offers_for 600 (auto_modifier y o b1))
                             (offers_for 600 (auto_modifier y o b2)))
                ltac:(vm_compute; reflexivity)
                (Py.and_lt (age r) 25) (Py.and_lt (vehicle_year r) 2005)
                a1 a2
                (accident_counts_range a1 ltac:(lia))
                (accident_counts_range a2 ltac:(lia))) as H.
  cbv beta in H. apply orb_prop in H. destruct H as [H|H]; [|exact H].
  apply Z.ltb_lt in H. lia.
Qed.

Lemma accidents_never_lower_prices_witness :
  all_le (prices (with_accidents young_driver_request (Some 1%Z)))
         (prices (with_accidents young_driver_request (Some 3%Z))) = true.
Proof.
  apply (accidents_never_lower_prices young_driver_request 1 3);
    [reflexivity| | |]; lia.
Defined.

(** An age below 25 makes every monthly price of a valid request strictly
    higher than an age of 25 or more, and an age of 25 or more is priced
    like a request without age. *)
Theorem young_driver_surcharge (r : QuoteRequest) (a b : Z) :
  valid r ->
  (16 <= a < 25)%Z -> (25 <= b)%Z ->
  all_lt (prices (with_age r (Some b))) (prices (with_age r (Some a))) = true
  /\ carriers (with_age r (Some b)) = carriers (with_age r None).
Proof.
  intros Hv Ha Hb. split.
  - destruct (quote_type r) eqn:Hq.
    + rewrite (prices_auto (with_age r (Some b)) Hq),
              (prices_auto (with_age r (Some a)) Hq).
      cbn [age vehicle_year accidents_last_5_years with_age].
      rewrite (and_lt_above b 25 Hb), (and_lt_below a 25) by lia.
      apply (every_auto_profile
               (fun _ o n =>
                  all_lt (offers_for 600 (auto_modifier false o n))
                         (offers_for 600 (auto_modifier true o n)))
               ltac:(vm_compute; reflexivity) true).
      now apply or_zero_accident_count.
    + rewrite (prices_home (with_age r (Some b)) Hq),
              (prices_home (with_age r (Some a)) Hq).
      cbn [age home_value security_system with_age].
      rewrite (and_lt_above b 25 Hb), (and_lt_below a 25) by lia.
      apply (every_home_profile
               (fun _ p s =>
                  all_lt (offers_for 1200 (home_modifier false p s))
                         (offers_for 1200 (home_modifier true p s)))
               ltac:(vm_compute; reflexivity) true).
  - apply carriers_depend_on; [reflexivity|].
    unfold modifiers.
    cbn [quote_type age vehicle_year accidents_last_5_years home_value
         security_system with_age].
    now rewrite (and_lt_above b 25 Hb).
Qed.

Lemma young_driver_surcharge_witness :
  all_lt (prices (with_age clean_auto_request (Some 40%Z)))
         (prices (with_age clean_auto_request (Some 19%Z))) = true.
Proof.
  assert (Hv : valid clean_auto_request) by (vm_compute; reflexivity).
  apply (young_driver_surcharge clean_auto_request 19 40 Hv); lia.
Defined.

(** On a valid auto quote a vehicle year before 2005 makes every monthly
    price strictly higher than a vehicle year from 2005 on, and a year from
    2005 on is priced like a request without vehicle year. *)
Theorem old_vehicle_surcharge (r : QuoteRequest) (y z : Z) :
  valid r ->
  quote_type r = auto ->
  (1980 <= y < 2005)%Z -> (2005 <= z)%Z ->
  all_lt (prices (with_vehicle_year r (Some z)))
         (prices (with_vehicle_year r (Some y))) = true
  /\ carriers (with_vehicle_year r (Some z))
     = carriers (with_vehicle_year r None).
Proof.
  intros Hv Hq Hy Hz. split.
  - rewrite (prices_auto (with_vehicle_year r (Some z)) Hq),
            (prices_auto (with_vehicle_year r (Some y)) Hq).
    cbn [age vehicle_year accidents_last_5_years with_vehicle_year].
    rewrite (and_lt_above z 2005 Hz), (and_lt_below y 2005) by lia.
    apply (every_auto_profile
             (fun young _ n =>
                all_lt (offers_for 600 (auto_modifier young false n))
                       (offers_for 600 (auto_modifier young true n)))
             ltac:(vm_compute; reflexivity) _ true).
    now apply or_zero_accident_count.
  - apply carriers_depend_on; [reflexivity|].
    unfold modifiers.
    cbn [quote_type age vehicle_year accidents_last_5_years home_value
         security_system with_vehicle_year].
    now rewrite (and_lt_above z 2005 Hz).
Qed.

Lemma old_vehicle_surcharge_witness :
  all_lt (prices (with_vehicle_year clean_auto_request (Some 2018%Z)))
         (prices (with_vehicle_year clean_auto_request (Some 1999%Z))) = true.
Proof.
  assert (Hv : valid clean_auto_request) by (vm_compute; reflexivity).
  apply (old_vehicle_surcharge clean_auto_request 1999 2018 Hv);
    [reflexivity| |]; lia.
Defined.

(** On a home quote a home value above 750000 makes every monthly price
    strictly higher than a value that is not above it, whatever the other
    fields are. *)
Theorem high_value_home_surcharge (r : QuoteRequest) (x1 x2 : float) :
  quote_type r = home ->
  PrimFloat.ltb 750000 x1 = false ->
  PrimFloat.ltb 750000 x2 = true ->
  all_lt (prices (with_home_value r (Some x1)))
         (prices (with_home_value r (Some x2))) = true.
Proof.
  intros Hq H1 H2.
  rewrite (prices_home (with_home_value r (Some x1)) Hq),
          (prices_home (with_home_value r (Some x2)) Hq).
  cbn [age home_value security_system with_home_value].
  rewrite !and_gt_present, H1, H2.
  apply (every_home_profile
           (fun young _ s =>
              all_lt (offers_for 1200 (home_modifier young false s))
                     (offers_for 1200 (home_modifier young true s)))
           ltac:(vm_compute; reflexivity) _ true).
Qed.

Lemma high_value_home_surcharge_witness :
  all_lt (prices (with_home_value secured_home_request (Some 750000)))
         (prices (with_home_value secured_home_request (Some 750000.01)))
  = true.
Proof.
  apply (high_value_home_surcharge secured_home_request 750000 750000.01);
    reflexivity.
Defined.

(** On a home quote a security system makes every monthly price strictly
    lower than the same request with [security_system] false or absent. *)
Theorem security_system_discount (r : QuoteRequest) :
  quote_type r = home ->
  all_lt (prices (with_security_system r (Some true)))
         (prices (with_security_system r (Some false))) = true
  /\ all_lt (prices (with_security_system r (Some true)))
            (prices (with_security_system r None)) = true.
Proof.
  intros Hq.
  rewrite (prices_home (with_security_system r (Some true)) Hq),
          (prices_home (with_security_system r (Some false)) Hq),
          (prices_home (with_security_system r None) Hq).
  cbn [age home_value security_system with_security_system Py.truthy_bool].
  split;
    apply (every_home_profile
             (fun young p _ =>
                all_lt (offers_for 1200 (home_modifier young p true))
                       (offers_for 1200 (home_modifier young p false)))
             ltac:(vm_compute; reflexivity) _ _ true).
Qed.

Lemma security_system_discount_witness :
  all_lt (prices (with_security_system secured_home_request (Some true)))
         (prices (with_security_system secured_home_request (Some false)))
  = true.
Proof.
  exact (proj1 (security_system_discount secured_home_request eq_refl)).
Defined.

Lemma and_lt_drop_zero (o : option Z) (bound : Z) :
  Py.and_lt (drop_zero o) bound = Py.and_lt o bound.
Proof.
  destruct o as [n|]; [|reflexivity]. cbn.
  destruct (n =? 0)%Z eqn:E; cbn; [reflexivity | now rewrite E].
Qed.

Lemma or_zero_drop_zero (o : option Z) :
  Py.or_zero (drop_zero o) = Py.or_zero o.
Proof.
  destruct o as [n|]; [|reflexivity]. cbn.
  destruct (n =? 0)%Z eqn:E; cbn; [reflexivity | now rewrite E].
Qed.

Lemma and_gt_drop_zero (o : option float) (bound : float) :
  Py.and_gt (drop_zero_float o) bound = Py.and_gt o bound.
Proof.
  destruct o as [x|]; [|reflexivity]. cbn.
  destruct (PrimFloat.eqb x 0) eqn:E; cbn; [reflexivity | now rewrite E].
Qed.

Lemma truthy_drop_false (o : option bool) :
  Py.truthy_bool (drop_false o) = Py.truthy_bool o.
Proof. destruct o as [[|]|]; reflexivity. Qed.

(** A field that holds zero or [False] is priced as if it were absent: an
    age or a vehicle year of 0, no accidents, a home value of zero and
    [security_system] false give the offers of the request without these
    fields.  This holds for every request whose accident count is absent or
    passes validation, whatever its other fields are. *)
Theorem falsy_fields_priced_as_absent (r : QuoteRequest) :
  in_range 0 10 (accidents_last_5_years r) = true ->
  carriers (drop_falsy r) = carriers r.
Proof.
  intros _. apply carriers_depend_on; [reflexivity|].
  unfold modifiers.
  cbn [quote_type age vehicle_year accidents_last_5_years home_value
       security_system drop_falsy].
  now rewrite !and_lt_drop_zero, !or_zero_drop_zero, and_gt_drop_zero,
              truthy_drop_false.
Qed.

Lemma falsy_fields_priced_as_absent_witness :
  carriers (drop_falsy zeroed_request) = carriers zeroed_request
  /\ prices zeroed_request = [47.5; 51; 44].
Proof.
  split.
  - exact (falsy_fields_priced_as_absent zeroed_request eq_refl).
  - vm_compute. reflexivity.
Defined.

(** The offers depend on the quote type, the age, the vehicle year, the
    accident count, the home value and the security system only: the zip
    code, the vehicle make and model and the square feet never change
    them. *)
Theorem offers_depend_on_rating_factors_only (r1 r2 : QuoteRequest) :
  same_rating_factors r1 r2 -> carriers r1 = carriers r2.
Proof.
  intros (Hq & Ha & Hy & Hn & Hv & Hs).
  apply carriers_depend_on.
  - unfold base_price. now rewrite Hq.
  - unfold modifiers. now rewrite Hq, Ha, Hy, Hn, Hv, Hs.
Qed.

Lemma offers_depend_on_rating_factors_only_witness :
  carriers young_driver_request
  = carriers {| quote_type := auto; zip_code := "00501"%string;
                age := Some 22%Z; vehicle_year := Some 1999%Z;
                vehicle_make := None; vehicle_model := Some "F-150"%string;
                accidents_last_5_years := Some 3%Z; home_value := None;
                square_feet := Some 250%Z; security_system := None |}.
Proof.
  apply offers_depend_on_rating_factors_only. repeat split.
Defined.

Ltac each_price :=
  repeat (apply Forall_cons; [vm_compute; reflexivity|]); apply Forall_nil.

(** Every monthly price of a valid request is a value with two decimals:
    rounding it to two decimals again gives the price itself. *)
Theorem prices_have_two_decimals (r : QuoteRequest) :
  valid r -> Forall (fun p => Py.round2 p = p) (prices r).
Proof.
  intros Hv. destruct (quote_type r) eqn:Hq.
  - rewrite (prices_auto r Hq).
    pose proof (or_zero_accident_count r Hv) as Hn.
    destruct (Py.and_lt (age r) 25), (Py.and_lt (vehicle_year r) 2005);
      cbn in Hn;
      repeat (destruct Hn as [Hn|Hn]; [rewrite <- Hn; each_price|]);
      contradiction.
  - rewrite (prices_home r Hq).
    destruct (Py.and_lt (age r) 25), (Py.and_gt (home_value r) 750000),
             (Py.truthy_bool (security_system r)); each_price.
Qed.

Lemma prices_have_two_decimals_witness :
  Forall (fun p => Py.round2 p = p) (prices young_driver_request).
Proof.
  assert (Hv : valid young_driver_request) by (vm_compute; reflexivity).
  exact (prices_have_two_decimals young_driver_request Hv).
Defined.

End PricingExtras.

Section OverallBounds.
Local Open Scope float_scope.

(** The bounds of the prices over both quote types. *)
Lemma prices_within_overall (r : QuoteRequest) :
  valid r -> within 44 147.9 (prices r) = true.
Proof.
  intros Hv. destruct (quote_type r) eqn:Hq.
  - rewrite (prices_auto r Hq).
    apply (every_auto_profile
             (fun y o a =>
                within 44 147.9 (offers_for 600 (auto_modifier y o a)))).
    + vm_compute. reflexivity.
    + now apply or_zero_accident_count.
  - rewrite (prices_home r Hq).
    apply (every_home_profile
             (fun y p s =>
                within 44 147.9 (offers_for 1200 (home_modifier y p s)))).
    vm_compute. reflexivity.
Qed.

End OverallBounds.

(** ** Further properties of the handlers *)

Section HandlerExtras.
Variable M : DatabaseModule.
Local Open Scope string_scope.

(** What [create_quote] returns is what it stored: after a success, the
    store was written once, with a document that holds the payload and the
    offers of the response, and the identifier of the response is the one
    that write returned. *)
Theorem create_quote_stores_what_it_returns
        (db db' : option (Database M)) (payload : QuoteRequest)
        (resp : QuoteResponse.t) :
  create_quote db payload = (db', inr resp) ->
  QuoteResponse.results resp = carriers payload
  /\ exists d d' : Database M,
       db = Some d /\ db' = Some d'
       /\ create_document M d "quote"
            {| new_fields := payload;
               new_results := QuoteResponse.results resp |}
          = (d', inr (QuoteResponse.id resp)).
Proof.
  unfold create_quote. destruct db as [d|]; [|discriminate].
  destruct (create_document M d "quote" _) as [d' [x|i]] eqn:Ew;
    [discriminate|].
  intros H. injection H as <- <-. cbn [QuoteResponse.results QuoteResponse.id].
  split; [reflexivity|]. exists d, d'. auto.
Qed.

(** The items of a successful [list_quotes] are the documents the store
    returned for the collection [quote] and the given limit, in the same
    number and order and with the same fields and results; only the
    identifier is replaced by its string, and an item listed again would not
    change. *)
Theorem list_quotes_items
        (db db' : option (Database M)) (limit : Z) (items : list Document) :
  list_quotes db limit = (db', inr items) ->
  exists (d d' : Database M) (docs : list Document),
    db = Some d /\ db' = Some d'
    /\ get_documents M d "quote" limit = (d', inr docs)
    /\ List.length items = List.length docs
    /\ map fields items = map fields docs
    /\ map results items = map results docs
    /\ map _id items = map (fun x => StrId (str (_id x))) docs
    /\ map stringify_id items = items.
Proof.
  unfold list_quotes. destruct db as [d|]; [|discriminate].
  destruct (get_documents M d "quote" limit) as [d' [x|docs]] eqn:Er;
    [discriminate|].
  intros H. injection H as <- <-.
  exists d, d', docs. rewrite length_map, !map_map.
  repeat split; first [exact Er | reflexivity].
Qed.

(** [list_quotes] ends in an error exactly when the store is not configured
    or the read fails; the status is 500 in both cases, and a read failure
    is surfaced with the diagnostic of the exception as it is, without a
    prefix. *)
Theorem list_quotes_server_errors (db : option (Database M)) (limit : Z) :
  ((exists e : HTTPException, snd (list_quotes db limit) = inl e)
   <-> (db = None
        \/ exists (d : Database M) (x : Exception),
            db = Some d /\ snd (get_documents M d "quote" limit) = inl x))
  /\ (forall e : HTTPException,
        snd (list_quotes db limit) = inl e -> status_code e = 500%Z)
  /\ (db = None ->
      list_quotes db limit
      = (None, inl {| status_code := 500;
                      detail := "Database not configured" |}))
  /\ (forall (d d' : Database M) (x : Exception),
        db = Some d ->
        get_documents M d "quote" limit = (d', inl x) ->
        list_quotes db limit
        = (Some d', inl {| status_code := 500; detail := x |})).
Proof.
  unfold list_quotes. destruct db as [d|].
  - destruct (get_documents M d "quote" limit) as [d' [x|docs]] eqn:Er;
      cbn [snd].
    + split; [split|].
      * intros _. right. exists d, x. split; [reflexivity | now rewrite Er].
      * intros _. eexists. reflexivity.
      * split; [|split].
        -- intros e He. injection He as <-. reflexivity.
        -- discriminate.
        -- intros d0 d1 x0 Hd Hr. injection Hd as <-. rewrite Er in Hr.
           injection Hr as <- <-. reflexivity.
    + split; [split|].
      * intros [e He]. discriminate.
      * intros [Hn | (d0 & x & Hd & Hx)]; [discriminate|].
        injection Hd as <-. rewrite Er in Hx. discriminate.
      * split; [|split].
        -- intros e He. discriminate.
        -- discriminate.
        -- intros d0 d1 x0 Hd Hr. injection Hd as <-. rewrite Er in Hr.
           discriminate.
  - cbn [snd]. split; [split|].
    + intros _. left. reflexivity.
    + intros _. eexists. reflexivity.
    + split; [|split].
      * intros e He. injection He as <-. reflexivity.
      * reflexivity.
      * intros d d' x Hd. discriminate.
Qed.

(** A quote that [POST /api/quotes] answers with 200 came from a body that
    satisfies the field constraints, and it carries three offers whose
    monthly prices all lie between 44.00 and 147.90. *)
Theorem accepted_quote_is_priced
        (db db' : option (Database M)) (body : QuoteRequest)
        (resp : QuoteResponse.t) :
  post_api_quotes db body = (db', Reply200 resp) ->
  valid body
  /\ List.length (QuoteResponse.results resp) = 3%nat
  /\ forall c : CarrierOffer,
       In c (QuoteResponse.results resp) ->
       PrimFloat.leb 44 (monthly c) = true
       /\ PrimFloat.leb (monthly c) 147.9 = true.
Proof.
  unfold post_api_quotes.
  destruct (field_constraints body) eqn:Hv; [|discriminate].
  destruct (create_quote db body) as [db1 [e|r]] eqn:Hc; [discriminate|].
  intros H. injection H as _ <-.
  destruct (create_quote_response M db db1 body r Hc) as (Hr & _).
  rewrite Hr. split; [exact Hv|]. split; [reflexivity|].
  intros c Hin. pose proof (prices_within_overall body Hv) as Hw.
  unfold within in Hw. rewrite forallb_forall in Hw.
  specialize (Hw (monthly c) (in_map monthly _ _ Hin)).
  apply andb_prop in Hw. exact Hw.
Qed.

End HandlerExtras.

Section HandlerExtraWitnesses.
Local Open Scope string_scope.

Lemma create_quote_stores_what_it_returns_witness :
  exists (db' : option SpecStore.t) (resp : QuoteResponse.t),
    create_quote (M := SpecStore.database) (Some (SpecStore.empty []))
      young_driver_request = (db', inr resp)
    /\ QuoteResponse.results resp = carriers young_driver_request.
Proof.
  destruct (create_quote_succeeds (SpecStore.empty []) young_driver_request
              eq_refl) as (d' & resp & Hc & _).
  exists (Some d'), resp. split; [exact Hc|].
  exact (proj1 (create_quote_stores_what_it_returns SpecStore.database
                  _ _ _ _ Hc)).
Defined.

Lemma list_quotes_items_witness :
  exists items : list Document,
    list_quotes (M := SpecStore.database) (Some one_quote) 20
    = (Some (SpecStore.after_call one_quote), inr items)
    /\ map _id items = [StrId "507f1f77bcf86cd799439011"]
    /\ map fields items = [young_driver_request]
    /\ map stringify_id items = items.
Proof.
  exists (map stringify_id (SpecStore.collection "quote" one_quote)).
  assert (H : list_quotes (M := SpecStore.database) (Some one_quote) 20
              = (Some (SpecStore.after_call one_quote),
                 inr (map stringify_id
                        (SpecStore.collection "quote" one_quote))))
    by reflexivity.
  destruct (list_quotes_items SpecStore.database _ _ _ _ H)
    as (d & d' & docs & Hd & _ & Hg & _ & Hf & _ & Hid & Hs).
  injection Hd as <-.
  assert (Hdocs : docs = SpecStore.collection "quote" one_quote).
  { cbn in Hg. injection Hg as _ <-. reflexivity. }
  subst docs.
  split; [exact H|]. split; [|split].
  - rewrite Hid. vm_compute. reflexivity.
  - rewrite Hf. reflexivity.
  - exact Hs.
Defined.

Lemma list_quotes_server_errors_witness :
  list_quotes (M := SpecStore.database)
    (Some (SpecStore.empty [Some long_diagnostic; None])) 20
  = (Some (SpecStore.empty [None]),
     inl {| status_code := 500; detail := long_diagnostic |}).
Proof.
  exact (proj2 (proj2 (proj2
           (list_quotes_server_errors SpecStore.database
              (Some (SpecStore.empty [Some long_diagnostic; None])) 20)))
           (SpecStore.empty [Some long_diagnostic; None])
           (SpecStore.empty [None]) long_diagnostic eq_refl eq_refl).
Defined.

Lemma accepted_quote_is_priced_witness :
  exists (db' : option SpecStore.t) (resp : QuoteResponse.t),
    post_api_quotes (M := SpecStore.database) (Some (SpecStore.empty []))
      young_driver_request = (db', Reply200 resp)
    /\ List.length (QuoteResponse.results resp) = 3%nat.
Proof.
  destruct (create_quote_succeeds (SpecStore.empty []) young_driver_request
              eq_refl) as (d' & resp & Hc & _).
  assert (Hp : post_api_quotes (M := SpecStore.database)
                 (Some (SpecStore.empty [])) young_driver_request
               = (Some d', Reply200 resp)).
  { unfold post_api_quotes.
    replace (field_constraints young_driver_request) with true
      by (vm_compute; reflexivity).
    now rewrite Hc. }
  exists (Some d'), resp. split; [exact Hp|].
  exact (proj1 (proj2 (accepted_quote_is_priced SpecStore.database
                         _ _ _ _ Hp))).
Defined.

End HandlerExtraWitnesses.

(** ** The persisted document and the [Quote] schema *)

(** The document [create_quote] hands to the store satisfies the
    constraints that [schemas.py] declares for the collection [quote]
    exactly when the payload satisfies those of [QuoteRequest]; so every
    document stored for a validated body conforms to the schema, and its
    [results] are present. *)
Theorem stored_document_conforms_to_schema (payload : QuoteRequest) :
  let doc := {| new_fields := payload; new_results := carriers payload |} in
  (Schemas.Quote_constraints (Quote_of_doc doc) = true <-> valid payload)
  /\ Schemas.results (Quote_of_doc doc) = Some (carriers payload).
Proof. cbv zeta. split; [split; intros H; exact H | reflexivity]. Qed.

Lemma stored_document_conforms_to_schema_witness :
  Schemas.Quote_constraints
    (Quote_of_doc {| new_fields := young_driver_request;
                     new_results := carriers young_driver_request |}) = true.
Proof.
  apply (proj1 (stored_document_conforms_to_schema young_driver_request)).
  vm_compute. reflexivity.
Defined.

(** ** Properties of string slicing *)

Section SliceFacts.

Lemma len_take (n : nat) (s : string) : (PyStr.len (PyStr.take n s) <= n)%nat.
Proof.
  revert n. induction s as [|c s IH]; intros n; cbn; [lia|].
  destruct (PyStr.is_continuation c) eqn:E; cbn; rewrite ?E.
  - apply IH.
  - destruct n as [|n]; cbn; rewrite ?E; [lia|].
    specialize (IH n). lia.
Qed.

Lemma take_prefix (n : nat) (s : string) :
  exists rest : string, s = (PyStr.take n s ++ rest)%string.
Proof.
  revert n. induction s as [|c s IH]; intros n; cbn.
  - exists EmptyString. reflexivity.
  - destruct (PyStr.is_continuation c).
    + destruct (IH n) as [rest E]. exists rest. cbn. now rewrite <- E.
    + destruct n as [|n].
      * exists (String c s). reflexivity.
      * destruct (IH n) as [rest E]. exists rest. cbn. now rewrite <- E.
Qed.

Lemma take_all (n : nat) (s : string) :
  (PyStr.len s <= n)%nat -> PyStr.take n s = s.
Proof.
  revert n. induction s as [|c s IH]; intros n H; cbn in *; [reflexivity|].
  destruct (PyStr.is_continuation c).
  - now rewrite IH.
  - destruct n as [|n]; [lia|]. rewrite IH by lia. reflexivity.
Qed.

End SliceFacts.

(** ** Properties of [test_database] *)

Section TestDatabaseFacts.
Local Open Scope string_scope.
Variable Handle : Type.
Variable name_of : Handle -> TestDatabase.Attribute.
Variable list_collection_names : Handle -> Exception + list string.
Variable getenv : string -> option string.

Local Abbreviation test_database :=
  (TestDatabase.test_database Handle name_of list_collection_names getenv).

Lemma collections_equation (db : option Handle) :
  TestDatabase.collections (test_database db)
  = match db with
    | Some d =>
        match name_of d, list_collection_names d with
        | TestDatabase.AttrRaises _, _ => []
        | _, inr names => firstn 10 names
        | _, inl _ => []
        end
    | None => []
    end.
Proof.
  unfold TestDatabase.test_database.
  destruct db as [d|]; [|reflexivity].
  destruct (name_of d), (list_collection_names d); reflexivity.
Qed.

(** The response of [test_database] lists at most ten collections: the
    first ten the handle reports when the handle is there and answers, and
    none otherwise. *)
Theorem test_database_collections (db : option Handle) :
  (List.length (TestDatabase.collections (test_database db)) <= 10)%nat
  /\ (forall (d : Handle) (names : list string),
        db = Some d ->
        (forall e, name_of d <> TestDatabase.AttrRaises e) ->
        list_collection_names d = inr names ->
        TestDatabase.collections (test_database db) = firstn 10 names)
  /\ (db = None -> TestDatabase.collections (test_database db) = [])
  /\ (forall (d : Handle) (e : Exception),
        db = Some d -> list_collection_names d = inl e ->
        TestDatabase.collections (test_database db) = []).
Proof.
  rewrite collections_equation. split; [|split; [|split]].
  - destruct db as [d|]; [|cbn; lia].
    destruct (name_of d), (list_collection_names d); cbn [List.length];
      try lia; rewrite length_firstn; lia.
  - intros d names -> Hn Hl. rewrite Hl.
    destruct (name_of d) as [s| |e] eqn:En; try reflexivity.
    exfalso. exact (Hn e eq_refl).
  - intros ->. reflexivity.
  - intros d e -> Hl. rewrite Hl. destruct (name_of d); reflexivity.
Qed.

Lemma database_equation (db : option Handle) :
  TestDatabase.database (test_database db)
  = match db with
    | Some d =>
        match name_of d, list_collection_names d with
        | TestDatabase.AttrRaises e, _ => "❌ Error: " ++ PyStr.take 50 e
        | _, inr _ => "✅ Connected & Working"
        | _, inl e => "⚠️  Connected but Error: " ++ PyStr.take 50 e
        end
    | None => "⚠️  Available but not initialized"
    end.
Proof.
  unfold TestDatabase.test_database.
  destruct db as [d|]; [|reflexivity].
  destruct (name_of d), (list_collection_names d); reflexivity.
Qed.

Lemma connection_status_equation (db : option Handle) :
  TestDatabase.connection_status (test_database db)
  = match db with
    | Some d =>
        match name_of d with
        | TestDatabase.AttrRaises _ => "Not Connected"
        | _ => "Connected"
        end
    | None => "Not Connected"
    end.
Proof.
  unfold TestDatabase.test_database.
  destruct db as [d|]; [|reflexivity].
  destruct (name_of d), (list_collection_names d); reflexivity.
Qed.

(** The fields [database_url] and [database_name] of the response tell
    whether the environment variables [DATABASE_URL] and [DATABASE_NAME] are
    set to a non-empty value and nothing else: whatever the handle is and
    does, its name and the word "Configured" never reach the caller. *)
Theorem test_database_reports_environment (db : option Handle) :
  TestDatabase.database_url (test_database db)
  = Some (if PyStr.truthy (getenv "DATABASE_URL")
          then "✅ Set" else "❌ Not Set")
  /\ TestDatabase.database_name (test_database db)
     = Some (if PyStr.truthy (getenv "DATABASE_NAME")
             then "✅ Set" else "❌ Not Set")
  /\ TestDatabase.backend (test_database db) = "✅ Running".
Proof.
  unfold TestDatabase.test_database.
  destruct db as [d|]; [|repeat split].
  destruct (name_of d), (list_collection_names d); repeat split.
Qed.

(** When the handle is there but listing its collections fails, the
    response keeps the status "Connected", lists no collection, and reports
    the first 50 characters of the diagnostic: the whole diagnostic when it
    has at most 50 characters. *)
Theorem test_database_listing_failure
        (db : option Handle) (d : Handle) (e : Exception) :
  db = Some d ->
  (forall e', name_of d <> TestDatabase.AttrRaises e') ->
  list_collection_names d = inl e ->
  TestDatabase.database (test_database db)
  = "⚠️  Connected but Error: " ++ PyStr.take 50 e
  /\ (PyStr.len (PyStr.take 50 e) <= 50)%nat
  /\ (exists rest : string, e = PyStr.take 50 e ++ rest)
  /\ ((PyStr.len e <= 50)%nat -> PyStr.take 50 e = e)
  /\ TestDatabase.connection_status (test_database db) = "Connected"
  /\ TestDatabase.collections (test_database db) = [].
Proof.
  intros -> Hn Hl.
  rewrite database_equation, connection_status_equation, collections_equation.
  rewrite Hl.
  destruct (name_of d) as [s| |e'] eqn:En;
    [| |exfalso; exact (Hn e' eq_refl)];
    (split; [reflexivity|]; split; [apply len_take|];
     split; [apply take_prefix|]; split; [apply take_all|];
     split; reflexivity).
Qed.

(** When reading the name of the handle raises, the response reports the
    first 50 characters of that diagnostic after the word "Error", stays
    "Not Connected" and lists no collection; the collections are not asked
    for. *)
Theorem test_database_handle_failure
        (db : option Handle) (d : Handle) (e : Exception) :
  db = Some d ->
  name_of d = TestDatabase.AttrRaises e ->
  TestDatabase.database (test_database db) = "❌ Error: " ++ PyStr.take 50 e
  /\ (PyStr.len (PyStr.take 50 e) <= 50)%nat
  /\ TestDatabase.connection_status (test_database db) = "Not Connected"
  /\ TestDatabase.collections (test_database db) = [].
Proof.
  intros -> Hn.
  rewrite database_equation, connection_status_equation, collections_equation.
  rewrite Hn. repeat split. apply len_take.
Qed.


End TestDatabaseFacts.

Section TestDatabaseWitnesses.
Local Open Scope string_scope.

Local Abbreviation sample_test_database :=
  (TestDatabase.test_database nat sample_name_of sample_collection_names
     sample_getenv).

Lemma test_database_collections_witness :
  TestDatabase.collections (sample_test_database (Some 0%nat))
  = ["quote"; "user"; "product"; "c4"; "c5"; "c6"; "c7"; "c8"; "c9"; "c10"].
Proof.
  refine (proj1 (proj2 (test_database_collections nat sample_name_of
                          sample_collection_names sample_getenv
                          (Some 0%nat)))
            0%nat _ eq_refl _ eq_refl).
  intros e H. discriminate H.
Defined.

Lemma test_database_listing_failure_witness :
  TestDatabase.database (sample_test_database (Some 1%nat))
  = "⚠️  Connected but Error: "
    ++ "localhost:27017: [Errno 111] Connection refused, T".
Proof.
  refine (proj1 (test_database_listing_failure nat sample_name_of
                   sample_collection_names sample_getenv
                   (Some 1%nat) 1%nat long_diagnostic eq_refl _ eq_refl)).
  intros e H. discriminate H.
Defined.

Lemma test_database_handle_failure_witness :
  TestDatabase.database (sample_test_database (Some 2%nat))
  = "❌ Error: " ++ "localhost:27017: [Errno 111] Connection refused, T".
Proof.
  exact (proj1 (test_database_handle_failure nat sample_name_of
                  sample_collection_names sample_getenv
                  (Some 2%nat) 2%nat long_diagnostic eq_refl eq_refl)).
Defined.


End TestDatabaseWitnesses.
